(** * helixia.db: a JSON file used as a key-value store

    The repository ships two variants of the class [HelixiaDB]:

    - the cached variant (the class that keeps [this.data] in memory, loads it
      in the constructor and lets errors reach the caller), embedded in
      [Module Cached];
    - the reloading variant ([index.js]: every method re-reads the file, and
      every method body sits in a [try]/[catch] that logs the error and
      returns a default), embedded in [Module Reloading].

    JavaScript values are embedded as trees that carry an object identity
    ([ref]) on arrays and objects, so that [===] on objects is comparison of
    identities.  Numbers are IEEE 754 binary64, that is Rocq's primitive
    floats.  What JavaScript does outside this value domain (cyclic values,
    class instances, symbols, big integers) is excluded by the type.  An
    object that is stored twice is two trees with one identity; [deleteKey],
    the one method that changes an object in place, changes every tree of
    the document that carries the identity of the object ([in_place]).

    A plain object is the finite map of its own properties together with
    what it inherits from [Object.prototype]: [o[key]] and [key in o] see
    both, [delete], [Object.keys] and [JSON.stringify] see the own
    properties only.

    The file system is a finite map from paths to contents; a backup is a
    second file of that map.  It accepts every write: [fs.writeFileSync] and
    the destination of [fs.copyFileSync] do not fail (no missing directory,
    no refused permission).  What the cached methods do when the write
    fails is the subject of [CachedOver], where [saveData] is left open. *)

From Stdlib Require Import Floats Ascii.
From stdpp Require Import gmap strings list fin_maps.

Set Warnings "-register-all".
Local Open Scope string_scope.

(** ** JavaScript values *)

Module JS.

(** Objects of the runtime that the store can reach through the prototype
    of a plain object: [Object.prototype] itself (read through the accessor
    [__proto__]) and its methods. *)
Inductive native :=
| ObjectPrototype
| BuiltinFunction (name : string).

Inductive value :=
| VUndefined
| VNull
| VBool (b : bool)
| VNumber (f : float)
| VString (s : string)
| VArray (ref : nat) (elems : list (option value))   (* [None] is a hole *)
| VObject (ref : nat) (props : gmap string value)
| VNative (n : native).

(** The own properties of a plain object; [this.data] is one. *)
Abbreviation object := (gmap string value).

Definition native_eqb (a b : native) : bool :=
  match a, b with
  | ObjectPrototype, ObjectPrototype => true
  | BuiltinFunction x, BuiltinFunction y => String.eqb x y
  | _, _ => false
  end.

(** [typeof v] *)
Definition typeof (v : value) : string :=
  match v with
  | VUndefined => "undefined"
  | VNull => "object"
  | VBool _ => "boolean"
  | VNumber _ => "number"
  | VString _ => "string"
  | VArray _ _ => "object"
  | VObject _ _ => "object"
  | VNative ObjectPrototype => "object"
  | VNative (BuiltinFunction _) => "function"
  end.

(** [Array.isArray(v)] *)
Definition Array_isArray (v : value) : bool :=
  match v with
  | VArray _ _ => true
  | _ => false
  end.

(** ToBoolean: [undefined], [null], [false], [+0], [-0], [NaN] and the empty
    string are falsy; everything else is truthy. *)
Definition truthy (v : value) : bool :=
  match v with
  | VUndefined | VNull => false
  | VBool b => b
  | VNumber f =>
      match PrimFloat.classify f with
      | PZero | NZero | NaN => false
      | _ => true
      end
  | VString s => negb (String.eqb s "")
  | VArray _ _ | VObject _ _ | VNative _ => true
  end.

(** [a || b] *)
Definition or_else (a b : value) : value := if truthy a then a else b.

(** [a === b]: primitives by value (IEEE equality on numbers, so [NaN] is
    not equal to itself and [-0 === 0]), objects by identity. *)
Definition strict_equals (a b : value) : bool :=
  match a, b with
  | VUndefined, VUndefined => true
  | VNull, VNull => true
  | VBool x, VBool y => Bool.eqb x y
  | VNumber x, VNumber y => PrimFloat.eqb x y
  | VString x, VString y => String.eqb x y
  | VArray r _, VArray r' _ => Nat.eqb r r'
  | VObject r _, VObject r' _ => Nat.eqb r r'
  | VNative x, VNative y => native_eqb x y
  | _, _ => false
  end.

(** [a !== b] *)
Definition strict_not_equals (a b : value) : bool := negb (strict_equals a b).

(** The properties of [Object.prototype]: the methods of the standard and of
    its Annex B, and the accessor [__proto__]. *)
Definition Object_prototype_methods : list string :=
  [ "constructor"; "hasOwnProperty"; "isPrototypeOf"; "propertyIsEnumerable";
    "toLocaleString"; "toString"; "valueOf";
    "__defineGetter__"; "__defineSetter__"; "__lookupGetter__";
    "__lookupSetter__" ].

(** What a plain object inherits under [key]. *)
Definition inherited (key : string) : option value :=
  if String.eqb key "__proto__" then Some (VNative ObjectPrototype)
  else if existsb (String.eqb key) Object_prototype_methods
       then Some (VNative (BuiltinFunction key))
       else None.

(** [o[key]] on a plain object: the own property, else the inherited one,
    else [undefined]. *)
Definition Get (o : object) (key : string) : value :=
  match o !! key with
  | Some v => v
  | None => default VUndefined (inherited key)
  end.

(** [key in o] on a plain object: own or inherited. *)
Definition HasProperty (o : object) (key : string) : bool :=
  match o !! key with
  | Some _ => true
  | None => match inherited key with Some _ => true | None => false end
  end.

(** [o[key] = v] on a plain object.  An own property is overwritten and a
    new key is added; the key [__proto__], when it is not an own property,
    reaches the setter of [Object.prototype], which ignores primitives and
    replaces the prototype of [o] by an object or [null].  The result is the
    own properties after the assignment and the new prototype, if replaced. *)
Definition Set_ (o : object) (key : string) (v : value) : object * option value :=
  match o !! key with
  | Some _ => (<[key := v]> o, None)
  | None =>
      if String.eqb key "__proto__" then
        match v with
        | VNull | VArray _ _ | VObject _ _ | VNative _ => (o, Some v)
        | _ => (o, None)
        end
      else (<[key := v]> o, None)
  end.

(** Array indices are the canonical decimal strings below [2^32 - 1]. *)
Definition is_digit (c : ascii) : bool :=
  (48 <=? nat_of_ascii c)%nat && (nat_of_ascii c <=? 57)%nat.

Fixpoint decimal (s : string) (acc : N) : option N :=
  match s with
  | EmptyString => Some acc
  | String c s' =>
      if is_digit c
      then decimal s' (acc * 10 + (N_of_ascii c - 48))%N
      else None
  end.

Definition array_index (key : string) : option nat :=
  match key with
  | EmptyString => None
  | String "0"%char EmptyString => Some 0%nat
  | String "0"%char _ => None
  | _ =>
      match decimal key 0%N with
      | Some n => if (n <? 4294967295)%N then Some (N.to_nat n) else None
      | None => None
      end
  end.

Definition number_of_nat (n : nat) : float :=
  PrimFloat.of_uint63 (Uint63.of_Z (Z.of_nat n)).

(** [a[key]] on an array, for an index or ["length"]; other keys are looked
    up in [Array.prototype], which is not part of this development
    ([None]). *)
Definition Array_get (elems : list (option value)) (key : string) : option value :=
  match array_index key with
  | Some i => Some (default VUndefined (mjoin (elems !! i)))
  | None =>
      if String.eqb key "length"
      then Some (VNumber (number_of_nat (length elems)))
      else None
  end.

(** [delete a[key]] on an array, in strict code: an index leaves a hole,
    ["length"] is not configurable ([inl]: TypeError), any other key is not
    an own property and nothing happens. *)
Definition Array_delete (elems : list (option value)) (key : string)
  : string + list (option value) :=
  match array_index key with
  | Some i => inr (<[i := None]> elems)
  | None =>
      if String.eqb key "length"
      then inl "Cannot delete property 'length' of [object Array]"
      else inr elems
  end.

(** [Object.prototype[key]] *)
Definition ObjectPrototype_get (key : string) : value :=
  if String.eqb key "__proto__" then VNull
  else default VUndefined (inherited key).

(** [a.filter(p)]: holes are skipped, the result is dense. *)
Definition Array_filter (p : value → bool) (elems : list (option value))
  : list (option value) :=
  List.filter (λ slot, match slot with Some x => p x | None => false end) elems.

(** ** JSON *)

(** The content of a JSON text, members of an object in the order of the
    text (a text may repeat a key). *)
Inductive json :=
| JNull
| JBool (b : bool)
| JNumber (f : float)
| JString (s : string)
| JArray (items : list json)
| JObject (members : list (string * json)).

(** JSON has no [NaN] and no infinities ([null] is written), and [-0] is
    written [0]. *)
Definition json_of_number (f : float) : json :=
  match PrimFloat.classify f with
  | NaN | PInf | NInf => JNull
  | NZero => JNumber 0%float
  | _ => JNumber f
  end.

(** [JSON.stringify(v)]; [None] is the result [undefined].  A member whose
    value has no JSON form is left out of an object and written [null] in an
    array, as is a hole.  Only own enumerable properties are written:
    [Object.prototype] has none. *)
Fixpoint JSON_stringify (v : value) : option json :=
  match v with
  | VUndefined => None
  | VNull => Some JNull
  | VBool b => Some (JBool b)
  | VNumber f => Some (json_of_number f)
  | VString s => Some (JString s)
  | VArray _ elems =>
      Some (JArray (List.map (λ slot,
              match slot with
              | Some x => default JNull (JSON_stringify x)
              | None => JNull
              end) elems))
  | VObject _ props => Some (JObject (map_to_list (omap JSON_stringify props)))
  | VNative ObjectPrototype => Some (JObject [])
  | VNative (BuiltinFunction _) => None
  end.

(** [JSON.stringify(o)] for the plain object with own properties [o]; the
    members are written in the order of the map. *)
Definition JSON_stringify_object (o : object) : json :=
  JObject (map_to_list (omap JSON_stringify o)).

(** [JSON.parse]: every array and object of the result is a new object;
    [n] is the next free identity.  A repeated key keeps its last value. *)
Fixpoint JSON_parse (j : json) (n : nat) : value * nat :=
  match j with
  | JNull => (VNull, n)
  | JBool b => (VBool b, n)
  | JNumber f => (VNumber f, n)
  | JString s => (VString s, n)
  | JArray items =>
      let '(elems, n') :=
        (fix parse_items (l : list json) (n : nat) : list (option value) * nat :=
           match l with
           | [] => ([], n)
           | x :: l' =>
               let '(v, n1) := JSON_parse x n in
               let '(vs, n2) := parse_items l' n1 in
               (Some v :: vs, n2)
           end) items n in
      (VArray n' elems, S n')
  | JObject members =>
      let '(props, n') :=
        (fix parse_members (l : list (string * json)) (acc : object) (n : nat)
           : object * nat :=
           match l with
           | [] => (acc, n)
           | (k, x) :: l' =>
               let '(v, n1) := JSON_parse x n in
               parse_members l' (<[k := v]> acc) n1
           end) members ∅ n in
      (VObject n' props, S n')
  end.

(** The two loops of [JSON_parse], by name. *)
Fixpoint parse_items (l : list json) (n : nat) : list (option value) * nat :=
  match l with
  | [] => ([], n)
  | x :: l' =>
      let '(v, n1) := JSON_parse x n in
      let '(vs, n2) := parse_items l' n1 in
      (Some v :: vs, n2)
  end.

Fixpoint parse_members (l : list (string * json)) (acc : object) (n : nat)
  : object * nat :=
  match l with
  | [] => (acc, n)
  | (k, x) :: l' =>
      let '(v, n1) := JSON_parse x n in
      parse_members l' (<[k := v]> acc) n1
  end.

(** The property key of a number [f] is an array index when [f] is an
    integer from [0] to [2^32 - 2] ([-0] is written ["0"]): [integer_below]
    finds, bit by bit, the largest integer of 32 bits that is not above [f],
    and [f] is an index when it is that integer. *)
Definition number_of_Z (z : Z) : float := PrimFloat.of_uint63 (Uint63.of_Z z).

Fixpoint integer_below (bits : nat) (f : float) (acc : Z) : Z :=
  match bits with
  | O => acc
  | S b =>
      let candidate := (acc + 2 ^ Z.of_nat b)%Z in
      if PrimFloat.leb (number_of_Z candidate) f
      then integer_below b f candidate
      else integer_below b f acc
  end.

Definition index_of_number (f : float) : option nat :=
  if PrimFloat.leb 0%float f && PrimFloat.ltb f 4294967295%float then
    let i := integer_below 32 f 0%Z in
    if PrimFloat.eqb (number_of_Z i) f then Some (Z.to_nat i) else None
  else None.

(** [a[index]] on an array, for a number: the element at an index; any other
    number names no property of an array ([undefined]). *)
Definition Array_at (elems : list (option value)) (index : float) : value :=
  match index_of_number index with
  | Some i => default VUndefined (mjoin (elems !! i))
  | None => VUndefined
  end.

End JS.

Import JS.

(** ** The environment: files, console, allocator *)

(** What a file holds: a JSON text, given by its content, or a text that
    [JSON.parse] rejects. *)
Inductive content :=
| JsonText (j : json)
| NotJson (raw : string).

Inductive fs_event :=
| FsWrite (path : string) (c : content)
| FsUnlink (path : string).

Record world := World {
  files : gmap string content;    (* the file system *)
  fs_log : list fs_event;         (* what was done to it, oldest first *)
  console : list string;          (* lines written by [console.error] *)
  next_ref : nat;                 (* the next free object identity *)
}.

(** The instances that [Error.js] exports, and the errors of the runtime
    that the methods can raise. *)
Inductive error :=
| FILE_NOT_FOUND
| INVALID_JSON
| INVALID_VALUE
| KEY_NOT_FOUND
| OBJECT_NOT_FOUND
| ARRAY_NOT_FOUND
| SyntaxError
| ReferenceError (name : string)
| TypeError (msg : string)
| ENOENT (syscall path : string).

(** [error.message] *)
Definition message (e : error) : string :=
  match e with
  | FILE_NOT_FOUND => "The database file could not be found."
  | INVALID_JSON => "The database file contains invalid JSON."
  | INVALID_VALUE => "The value provided cannot be null or undefined."
  | KEY_NOT_FOUND => "The requested key does not exist in the database."
  | OBJECT_NOT_FOUND => "The requested key is not an object."
  | ARRAY_NOT_FOUND => "The requested key is not an array."
  | SyntaxError => "Unexpected token in JSON"   (* varies with the text *)
  | ReferenceError name => name +:+ " is not defined"
  | TypeError msg => msg
  | ENOENT syscall path =>
      "ENOENT: no such file or directory, " +:+ syscall +:+ " '" +:+ path +:+ "'"
  end.

(** ** Computations that return, throw, or leave the model

    [OutsideModel] marks the few executions that this development does not
    follow: a file whose JSON text is not an object, the replacement or
    mutation of a prototype through the key [__proto__], and a property
    looked up in [Array.prototype]. *)
Inductive outcome (S A : Type) :=
| Returns (a : A) (s : S)
| Throws (e : error) (s : S)
| OutsideModel.
Arguments Returns {S A} a s.
Arguments Throws {S A} e s.
Arguments OutsideModel {S A}.

Definition M (S A : Type) : Type := S → outcome S A.

Definition ret {S A} (a : A) : M S A := λ s, Returns a s.
Definition throw {S A} (e : error) : M S A := λ s, Throws e s.
Definition outside_model {S A} : M S A := λ _, OutsideModel.

Definition bind {S A B} (m : M S A) (k : A → M S B) : M S B :=
  λ s, match m s with
       | Returns a s' => k a s'
       | Throws e s' => Throws e s'
       | OutsideModel => OutsideModel
       end.

(** [try { m } catch (error) { handler error }] *)
Definition try_catch {S A} (m : M S A) (handler : error → M S A) : M S A :=
  λ s, match m s with
       | Throws e s' => handler e s'
       | r => r
       end.

Notation "'let*' x := m 'in' k" := (bind m (λ x, k))
  (at level 10, x pattern, m at level 100, k at level 200).
Notation "m ;; k" := (bind m (λ _, k))
  (at level 100, k at level 200, right associativity).

(** [l.forEach(body)] *)
Fixpoint forEach {S A} (l : list A) (body : A → M S unit) : M S unit :=
  match l with
  | [] => ret tt
  | x :: l' => body x ;; forEach l' body
  end.

(** *** Node's [fs], [console] and [JSON.parse] on the environment

    The file system refuses nothing but the reading and the removal of a
    file that does not exist. *)

Definition fs_existsSync (path : string) : M world bool :=
  λ w, Returns (bool_decide (is_Some (files w !! path))) w.

Definition fs_readFileSync (path : string) : M world content :=
  λ w, match files w !! path with
       | Some c => Returns c w
       | None => Throws (ENOENT "open" path) w
       end.

(** [fs.writeFileSync(path, text, 'utf-8')] on a file system that accepts the
    write. *)
Definition fs_writeFileSync (path : string) (c : content) : M world unit :=
  λ w, Returns tt
         {| files := <[path := c]> (files w);
            fs_log := fs_log w ++ [FsWrite path c];
            console := console w;
            next_ref := next_ref w |}.

Definition fs_unlinkSync (path : string) : M world unit :=
  λ w, match files w !! path with
       | Some _ =>
           Returns tt
             {| files := base.delete path (files w);
                fs_log := fs_log w ++ [FsUnlink path];
                console := console w;
                next_ref := next_ref w |}
       | None => Throws (ENOENT "unlink" path) w
       end.

Definition console_error (line : string) : M world unit :=
  λ w, Returns tt
         {| files := files w;
            fs_log := fs_log w;
            console := console w ++ [line];
            next_ref := next_ref w |}.

(** [fs.copyFileSync(src, dest)]: [dest] is written with what [src] holds. *)
Definition fs_copyFileSync (src dest : string) : M world unit :=
  λ w, match files w !! src with
       | Some c =>
           Returns tt
             {| files := <[dest := c]> (files w);
                fs_log := fs_log w ++ [FsWrite dest c];
                console := console w;
                next_ref := next_ref w |}
       | None => Throws (ENOENT "copyfile" (src +:+ "' -> '" +:+ dest)) w
       end.

(** The path of [createBackup(backupPath)]: an omitted or empty [backupPath]
    is falsy and gives way to the default. *)
Definition backup_path (filePath : string) (backupPath : option string) : string :=
  match backupPath with
  | Some p => if String.eqb p "" then filePath +:+ ".bak" else p
  | None => filePath +:+ ".bak"
  end.

(** A new object identity. *)
Definition fresh_ref : M world nat :=
  λ w, Returns (next_ref w)
         {| files := files w;
            fs_log := fs_log w;
            console := console w;
            next_ref := S (next_ref w) |}.

(** [JSON.parse(text)] *)
Definition JSON_parse_text (text : content) : M world value :=
  match text with
  | NotJson _ => throw SyntaxError
  | JsonText j =>
      λ w, let '(v, n) := JSON_parse j (next_ref w) in
           Returns v
             {| files := files w;
                fs_log := fs_log w;
                console := console w;
                next_ref := n |}
  end.

(** The document a store reads from the file at [path]: the members of the
    JSON object, and the empty document when there is no file or no JSON. *)
Definition document_on_disk (w : world) (path : string) : list (string * json) :=
  match files w !! path with
  | Some (JsonText (JObject members)) => members
  | _ => []
  end.

(** [target.filter(item => item !== value)]: a new array. *)
Definition filter_not_equal (target value : value) : M world JS.value :=
  match target with
  | VArray _ elems =>
      let* r := fresh_ref in
      ret (VArray r (Array_filter (λ item, strict_not_equals item value) elems))
  | _ => throw (TypeError "filter is not a function")
  end.

(** [delete target[subKey]] in strict code; the result is [target] after the
    deletion. *)
Definition delete_member (target : value) (subKey : string) : M world value :=
  match target with
  | VObject r props => ret (VObject r (base.delete subKey props))
  | VArray r elems =>
      match Array_delete elems subKey with
      | inl msg => throw (TypeError msg)
      | inr elems' => ret (VArray r elems')
      end
  | VUndefined | VNull =>
      throw (TypeError "Cannot convert undefined or null to object")
  | _ => outside_model
  end.

(** [delete target[subKey]] changes the object itself, so whoever holds the
    object sees the change.  [in_place r changed v] is the tree [v] once the
    object of identity [r] has become [changed]: every occurrence of the
    identity is the changed object. *)
Fixpoint in_place (r : nat) (changed : value) (v : value) : value :=
  match v with
  | VArray r' elems =>
      if Nat.eqb r' r then changed
      else VArray r' (List.map (option_map (in_place r changed)) elems)
  | VObject r' props =>
      if Nat.eqb r' r then changed
      else VObject r' (in_place r changed <$> props)
  | _ => v
  end.

(** The document once the array or object [changed] has been changed in
    place. *)
Definition changed_in_place (changed : value) (d : object) : object :=
  match changed with
  | VArray r _ | VObject r _ => in_place r changed <$> d
  | _ => d
  end.

(** [target[subKey]] *)
Definition get_member (target : value) (subKey : string) : M world value :=
  match target with
  | VObject _ props => ret (Get props subKey)
  | VArray _ elems =>
      match Array_get elems subKey with
      | Some v => ret v
      | None => outside_model
      end
  | VNative ObjectPrototype => ret (ObjectPrototype_get subKey)
  | VUndefined | VNull =>
      throw (TypeError "Cannot read properties of undefined or null")
  | _ => outside_model
  end.

(** [target[index]] for a number [index] *)
Definition get_element (target : value) (index : float) : M world value :=
  match target with
  | VArray _ elems => ret (Array_at elems index)
  | VUndefined | VNull =>
      throw (TypeError "Cannot read properties of undefined or null")
  | _ => outside_model
  end.

(** [Object.keys(o)].  The keys come in the order of the map, not in the
    order of insertion; each key comes once. *)
Definition Object_keys (o : object) : list string := (map_to_list o).*1.

(** ** The cached variant *)

Module Cached.

Record HelixiaDB := { filePath : string; data : object }.

(** An instance and its environment. *)
Abbreviation state := (HelixiaDB * world)%type.

Definition this_filePath : M state string := λ s, Returns (filePath s.1) s.
Definition this_data : M state object := λ s, Returns (data s.1) s.

(** The instance with [this.data = d]. *)
Definition with_data (this : HelixiaDB) (d : object) : HelixiaDB :=
  {| filePath := filePath this; data := d |}.

(** [this.data = d] *)
Definition set_this_data (d : object) : M state unit :=
  λ s, Returns tt (with_data s.1 d, s.2).

(** A computation on the environment, run from a method. *)
Definition env {A} (m : M world A) : M state A :=
  λ s, match m s.2 with
       | Returns a w => Returns a (s.1, w)
       | Throws e w => Throws e (s.1, w)
       | OutsideModel => OutsideModel
       end.

(** [this.data[key] = v] *)
Definition assign (key : string) (v : value) : M state unit :=
  let* d := this_data in
  match Set_ d key v with
  | (d', None) => set_this_data d'
  | (_, Some _) => outside_model
  end.

(** [delete this.data[key]] *)
Definition delete_property (key : string) : M state unit :=
  let* d := this_data in
  set_this_data (base.delete key d).

Definition saveData : M state unit :=
  let* path := this_filePath in
  let* d := this_data in
  env (fs_writeFileSync path (JsonText (JSON_stringify_object d))).

Definition loadData : M state unit :=
  try_catch
    (let* path := this_filePath in
     let* found := env (fs_existsSync path) in
     if found : bool then
       let* text := env (fs_readFileSync path) in
       let* v := env (JSON_parse_text text) in
       match v with
       | VObject _ props => set_this_data props
       | _ => outside_model
       end
     else
       set_this_data ∅ ;;
       saveData)
    (λ error,
       match error with
       | SyntaxError => throw INVALID_JSON
       | _ => throw error
       end).

(** [new HelixiaDB(filePath)] *)
Definition constructor (filePath : string) : M world HelixiaDB :=
  λ w, match loadData ({| filePath := filePath; data := ∅ |}, w) with
       | Returns _ (this, w') => Returns this w'
       | Throws e (_, w') => Throws e w'
       | OutsideModel => OutsideModel
       end.

Definition set (key : string) (value : value) : M state unit :=
  if strict_equals value VNull || strict_equals value VUndefined
  then throw INVALID_VALUE
  else
    assign key value ;;
    saveData.

Definition get (key : string) : M state value :=
  let* d := this_data in
  ret (or_else (Get d key) VNull).

Definition remove (key : string) : M state unit :=
  delete_property key ;;
  saveData.

Definition delete (key : string) (value : value) : M state unit :=
  let* d := this_data in
  if negb (Array_isArray (Get d key))
  then throw ARRAY_NOT_FOUND
  else
    let* filtered := env (filter_not_equal (Get d key) value) in
    assign key filtered ;;
    saveData.

(** The object at [this.data[key]] is changed in place: the document holds
    the changed object at [key] and wherever else it holds the same object.
    (Past the guard, what was read at [key] is an own property, or
    [Object.prototype] itself, which [delete_member] leaves to
    [OutsideModel].) *)
Definition deleteKey (key subKey : string) : M state unit :=
  let* d := this_data in
  if negb (String.eqb (typeof (Get d key)) "object")
     || strict_equals (Get d key) VNull
  then throw OBJECT_NOT_FOUND
  else
    let* target := env (delete_member (Get d key) subKey) in
    set_this_data (changed_in_place target d) ;;
    saveData.

Definition deleteEach_body (value : value) (key : string) : M state unit :=
  let* d := this_data in
  if Array_isArray (Get d key) then
    let* filtered := env (filter_not_equal (Get d key) value) in
    assign key filtered
  else if strict_equals (Get d key) value then
    delete_property key
  else ret tt.

Definition deleteEach (value : value) : M state unit :=
  let* d := this_data in
  forEach (Object_keys d) (deleteEach_body value) ;;
  saveData.

Definition has (key : string) : M state bool :=
  let* d := this_data in
  ret (HasProperty d key).

Definition fetch (key : string) : M state value := get key.

Definition all : M state object := this_data.

Definition clear : M state unit :=
  set_this_data ∅ ;;
  saveData.

Definition destroy : M state unit :=
  let* path := this_filePath in
  env (fs_unlinkSync path).

Definition fetchObject (key subKey : string) : M state value :=
  let* d := this_data in
  if negb (String.eqb (typeof (Get d key)) "object")
     || strict_equals (Get d key) VNull
  then throw OBJECT_NOT_FOUND
  else
    let* v := env (get_member (Get d key) subKey) in
    ret (or_else v VNull).

(** [this.data[key] op= value], on a number. *)
Definition compound_assign (key : string) (op : float → float → float)
    (value : float) : M state unit :=
  let* d := this_data in
  match Get d key with
  | VNumber x => assign key (VNumber (op x value))
  | _ => outside_model
  end.

(** The class [DatabaseError] is not in scope in this file (only the
    instances of [Error.js] are imported), so [new DatabaseError(...)] raises
    a ReferenceError. *)
Definition new_DatabaseError {A} (msg : string) : M state A :=
  throw (ReferenceError "DatabaseError").

Definition math (key operator : string) (value : float) : M state JS.value :=
  let* d := this_data in
  if negb (String.eqb (typeof (Get d key)) "number")
  then new_DatabaseError "The value associated with the key is not a number."
  else if negb (existsb (String.eqb operator) ["+"; "-"; "*"; "/"])
  then new_DatabaseError "Invalid operator."
  else
    (if String.eqb operator "+" then compound_assign key PrimFloat.add value
     else if String.eqb operator "-" then compound_assign key PrimFloat.sub value
     else if String.eqb operator "*" then compound_assign key PrimFloat.mul value
     else if String.eqb operator "/" then compound_assign key PrimFloat.div value
     else ret tt) ;;
    saveData ;;
    let* d := this_data in
    ret (Get d key).

Definition createBackup (backupPath : option string) : M state unit :=
  let* path := this_filePath in
  env (fs_copyFileSync path (backup_path path backupPath)).

Definition restoreBackup (backupPath : string) : M state unit :=
  let* found := env (fs_existsSync backupPath) in
  if negb found
  then new_DatabaseError "Backup file not found."
  else
    let* path := this_filePath in
    env (fs_copyFileSync backupPath path) ;;
    loadData.

Definition fetchArray (key : string) (index : float) : M state value :=
  let* d := this_data in
  if negb (Array_isArray (Get d key))
  then throw ARRAY_NOT_FOUND
  else
    let* v := env (get_element (Get d key) index) in
    ret (or_else v VNull).

End Cached.

(** ** The cached variant over any [saveData]

    The methods of the cached variant that change the document, with
    [this.saveData()] left open: [saveData] is any computation on the
    instance and its environment, so that it can stand for a write that the
    file system refuses.  With [Cached.saveData] for it, these are the
    methods of [Cached]. *)

Module CachedOver.
Section Methods.
Variable saveData : M Cached.state unit.

Definition set (key : string) (value : value) : M Cached.state unit :=
  if strict_equals value VNull || strict_equals value VUndefined
  then throw INVALID_VALUE
  else
    Cached.assign key value ;;
    saveData.

Definition remove (key : string) : M Cached.state unit :=
  Cached.delete_property key ;;
  saveData.

Definition delete (key : string) (value : value) : M Cached.state unit :=
  let* d := Cached.this_data in
  if negb (Array_isArray (Get d key))
  then throw ARRAY_NOT_FOUND
  else
    let* filtered := Cached.env (filter_not_equal (Get d key) value) in
    Cached.assign key filtered ;;
    saveData.

Definition deleteKey (key subKey : string) : M Cached.state unit :=
  let* d := Cached.this_data in
  if negb (String.eqb (typeof (Get d key)) "object")
     || strict_equals (Get d key) VNull
  then throw OBJECT_NOT_FOUND
  else
    let* target := Cached.env (delete_member (Get d key) subKey) in
    Cached.set_this_data (changed_in_place target d) ;;
    saveData.

Definition deleteEach (value : value) : M Cached.state unit :=
  let* d := Cached.this_data in
  forEach (Object_keys d) (Cached.deleteEach_body value) ;;
  saveData.

Definition clear : M Cached.state unit :=
  Cached.set_this_data ∅ ;;
  saveData.

Definition math (key operator : string) (value : float) : M Cached.state JS.value :=
  let* d := Cached.this_data in
  if negb (String.eqb (typeof (Get d key)) "number")
  then Cached.new_DatabaseError "The value associated with the key is not a number."
  else if negb (existsb (String.eqb operator) ["+"; "-"; "*"; "/"])
  then Cached.new_DatabaseError "Invalid operator."
  else
    (if String.eqb operator "+" then Cached.compound_assign key PrimFloat.add value
     else if String.eqb operator "-" then Cached.compound_assign key PrimFloat.sub value
     else if String.eqb operator "*" then Cached.compound_assign key PrimFloat.mul value
     else if String.eqb operator "/" then Cached.compound_assign key PrimFloat.div value
     else ret tt) ;;
    saveData ;;
    let* d := Cached.this_data in
    ret (Get d key).

End Methods.
End CachedOver.

(** ** The reloading variant ([index.js]) *)

Module Reloading.

(** An instance only holds the path; the document lives in the file. *)
Record HelixiaDB := { filePath : string }.

(** The loop of [forEach] over a local variable that the callback updates. *)
Fixpoint forEach_local {A D} (l : list A) (body : D → A → M world D) (d : D)
  : M world D :=
  match l with
  | [] => ret d
  | x :: l' => let* d' := body d x in forEach_local l' body d'
  end.

(** [data[key] = v] on the local object [data]; a prototype replaced on it is
    lost with it. *)
Definition assign (data : object) (key : string) (v : value) : object :=
  (Set_ data key v).1.

(** [color.red] only adds colour; the line is logged as it is. *)
Definition color_red (line : string) : string := line.

Definition saveData (this : HelixiaDB) (data : object) : M world unit :=
  try_catch
    (fs_writeFileSync (filePath this) (JsonText (JSON_stringify_object data)))
    (λ error,
       console_error (color_red ("Failed to save data: " +:+ message error))).

Definition loadData (this : HelixiaDB) : M world object :=
  try_catch
    (let* found := fs_existsSync (filePath this) in
     if found : bool then
       let* text := fs_readFileSync (filePath this) in
       let* v := JSON_parse_text text in
       match v with
       | VObject _ props => ret props
       | _ => outside_model
       end
     else
       saveData this ∅ ;;
       ret ∅)
    (λ error,
       match error with
       | SyntaxError => console_error (color_red (message INVALID_JSON))
       | _ => console_error (color_red (message error))
       end ;;
       ret ∅).

Definition set (this : HelixiaDB) (key : string) (value : value) : M world unit :=
  try_catch
    (if strict_equals value VNull || strict_equals value VUndefined
     then throw INVALID_VALUE
     else
       let* data := loadData this in
       saveData this (assign data key value))
    (λ error, console_error (color_red (message error))).

Definition get (this : HelixiaDB) (key : string) : M world value :=
  try_catch
    (let* data := loadData this in
     ret (or_else (Get data key) VNull))
    (λ error,
       console_error (color_red ("Failed to retrieve data: " +:+ message error)) ;;
       ret VNull).

Definition remove (this : HelixiaDB) (key : string) : M world unit :=
  try_catch
    (let* data := loadData this in
     saveData this (base.delete key data))
    (λ error,
       console_error (color_red ("Failed to remove key: " +:+ message error))).

Definition delete (this : HelixiaDB) (key : string) (value : value) : M world unit :=
  try_catch
    (let* data := loadData this in
     if negb (Array_isArray (Get data key))
     then throw ARRAY_NOT_FOUND
     else
       let* filtered := filter_not_equal (Get data key) value in
       saveData this (assign data key filtered))
    (λ error, console_error (color_red (message error))).

(** The object at [data[key]] is changed in place, as in the cached
    variant. *)
Definition deleteKey (this : HelixiaDB) (key subKey : string) : M world unit :=
  try_catch
    (let* data := loadData this in
     if negb (String.eqb (typeof (Get data key)) "object")
        || strict_equals (Get data key) VNull
     then throw OBJECT_NOT_FOUND
     else
       let* target := delete_member (Get data key) subKey in
       saveData this (changed_in_place target data))
    (λ error, console_error (color_red (message error))).

Definition deleteEach_body (value : value) (data : object) (key : string)
  : M world object :=
  if Array_isArray (Get data key) then
    let* filtered := filter_not_equal (Get data key) value in
    ret (assign data key filtered)
  else if strict_equals (Get data key) value then
    ret (base.delete key data)
  else ret data.

Definition deleteEach (this : HelixiaDB) (value : value) : M world unit :=
  try_catch
    (let* data := loadData this in
     let* data' := forEach_local (Object_keys data) (deleteEach_body value) data in
     saveData this data')
    (λ error,
       console_error (color_red ("Failed to delete each: " +:+ message error))).

Definition has (this : HelixiaDB) (key : string) : M world bool :=
  try_catch
    (let* data := loadData this in
     ret (HasProperty data key))
    (λ error,
       console_error
         (color_red ("Failed to check key existence: " +:+ message error)) ;;
       ret false).

Definition fetch (this : HelixiaDB) (key : string) : M world value := get this key.

Definition all (this : HelixiaDB) : M world object :=
  try_catch
    (loadData this)
    (λ error,
       console_error
         (color_red ("Failed to retrieve all data: " +:+ message error)) ;;
       ret ∅).

Definition clear (this : HelixiaDB) : M world unit :=
  try_catch
    (saveData this ∅)
    (λ error,
       console_error (color_red ("Failed to clear data: " +:+ message error))).

Definition destroy (this : HelixiaDB) : M world unit :=
  try_catch
    (fs_unlinkSync (filePath this))
    (λ error,
       console_error (color_red ("Failed to destroy file: " +:+ message error))).

Definition fetchObject (this : HelixiaDB) (key subKey : string) : M world value :=
  try_catch
    (let* data := loadData this in
     if negb (String.eqb (typeof (Get data key)) "object")
        || strict_equals (Get data key) VNull
     then throw OBJECT_NOT_FOUND
     else
       let* v := get_member (Get data key) subKey in
       ret (or_else v VNull))
    (λ error,
       console_error (color_red (message error)) ;;
       ret VNull).

(** As in the cached variant, [DatabaseError] is not in scope. *)
Definition new_DatabaseError {A} (msg : string) : M world A :=
  throw (ReferenceError "DatabaseError").

(** [data[key] op= value], on a number. *)
Definition compound_assign (data : object) (key : string)
    (op : float → float → float) (value : float) : M world object :=
  match Get data key with
  | VNumber x => ret (assign data key (VNumber (op x value)))
  | _ => outside_model
  end.

Definition math (this : HelixiaDB) (key operator : string) (value : float)
  : M world JS.value :=
  try_catch
    (let* data := loadData this in
     if negb (String.eqb (typeof (Get data key)) "number")
     then new_DatabaseError "The value associated with the key is not a number."
     else if negb (existsb (String.eqb operator) ["+"; "-"; "*"; "/"])
     then new_DatabaseError "Invalid operator."
     else
       let* data' :=
         (if String.eqb operator "+" then compound_assign data key PrimFloat.add value
          else if String.eqb operator "-" then compound_assign data key PrimFloat.sub value
          else if String.eqb operator "*" then compound_assign data key PrimFloat.mul value
          else if String.eqb operator "/" then
            if PrimFloat.eqb value 0%float
            then new_DatabaseError "Division by zero is not allowed."
            else compound_assign data key PrimFloat.div value
          else ret data) in
       saveData this data' ;;
       ret (Get data' key))
    (λ error,
       console_error (color_red (message error)) ;;
       ret VNull).

Definition createBackup (this : HelixiaDB) (backupPath : option string)
  : M world unit :=
  try_catch
    (fs_copyFileSync (filePath this) (backup_path (filePath this) backupPath))
    (λ error,
       console_error (color_red ("Failed to create backup: " +:+ message error))).

(** The error of [throw new Error('Backup file not found.')] is not one of
    [error]; the handler only reads the message of what it catches, and the
    body hands it that message ([Some]), or [None] when nothing was thrown.
    What [this.loadData()] returns is not used. *)
Definition restoreBackup (this : HelixiaDB) (backupPath : string) : M world unit :=
  let* thrown :=
    try_catch
      (let* found := fs_existsSync backupPath in
       if negb found
       then ret (Some "Backup file not found.")
       else
         fs_copyFileSync backupPath (filePath this) ;;
         loadData this ;;
         ret None)
      (λ error, ret (Some (message error))) in
  match thrown with
  | Some msg => console_error (color_red ("Failed to restore backup: " +:+ msg))
  | None => ret tt
  end.

Definition fetchArray (this : HelixiaDB) (key : string) (index : float)
  : M world value :=
  try_catch
    (let* data := loadData this in
     if negb (Array_isArray (Get data key))
     then throw ARRAY_NOT_FOUND
     else
       let* v := get_element (Get data key) index in
       ret (or_else v VNull))
    (λ error,
       console_error (color_red (message error)) ;;
       ret VNull).

End Reloading.

(** ** Vocabulary of the properties *)

(** The value without the identities of its objects: two values are
    deep-equal when they are the same tree up to identities. *)
Fixpoint erase (v : value) : value :=
  match v with
  | VArray _ elems => VArray 0 (List.map (option_map erase) elems)
  | VObject _ props => VObject 0 (erase <$> props)
  | _ => v
  end.

Definition deep_equal (a b : value) : Prop := erase a = erase b.

(** Documents are compared as the objects they are. *)
Definition deep_equal_documents (a b : object) : Prop :=
  erase <$> a = erase <$> b.

(** The values that a JSON text can denote and that [JSON.stringify] writes
    as they are: no [undefined], no function, no hole, and only finite
    numbers other than [-0]. *)
Fixpoint json_safe (v : value) : bool :=
  match v with
  | VNull | VBool _ | VString _ => true
  | VNumber f =>
      match PrimFloat.classify f with
      | NaN | PInf | NInf | NZero => false
      | _ => true
      end
  | VArray _ elems =>
      forallb (λ slot, match slot with Some x => json_safe x | None => false end)
        elems
  | VObject _ props => map_fold (λ _ x acc, json_safe x && acc) true props
  | VUndefined | VNative _ => false
  end.

Definition json_safe_document (d : object) : bool :=
  map_fold (λ _ x acc, json_safe x && acc) true d.

(** What [JSON.stringify] writes for a slot of an array. *)
Definition slot_json (slot : option value) : json :=
  match slot with
  | Some x => default JNull (JSON_stringify x)
  | None => JNull
  end.

(** Size of a value, for induction through the properties of objects. *)
Fixpoint value_size (v : value) : nat :=
  match v with
  | VArray _ elems =>
      S (list_sum (List.map
                     (λ slot, match slot with Some x => value_size x | None => 0 end)
                     elems))
  | VObject _ props => S (map_fold (λ _ x acc, value_size x + acc) 0 props)
  | _ => 1
  end.

(** Primitive values, and objects that are one and the same. *)
Definition is_primitive (v : value) : bool :=
  match v with
  | VUndefined | VNull | VBool _ | VNumber _ | VString _ => true
  | _ => false
  end.

Definition same_reference (a b : value) : bool :=
  match a, b with
  | VArray r _, VArray r' _ => Nat.eqb r r'
  | VObject r _, VObject r' _ => Nat.eqb r r'
  | VNative x, VNative y => native_eqb x y
  | _, _ => false
  end.

(** What an outcome shows to the caller: the result or the error, without
    the state. *)
Definition observed {S A} (o : outcome S A) : option (error + A) :=
  match o with
  | Returns a _ => Some (inr a)
  | Throws e _ => Some (inl e)
  | OutsideModel => None
  end.

(** How [deleteEach(value)] relates an entry of the document before the call
    to the entry after it. *)
Definition deleteEach_entry (value : value) (before after : option JS.value) : Prop :=
  match before with
  | Some (VArray _ elems) =>
      ∃ r, after = Some (VArray r (Array_filter
                                     (λ item, strict_not_equals item value) elems))
  | Some x => after = if strict_equals x value then None else Some x
  | None => after = None
  end.

(** One round of the loop of [deleteEach] on the document [d], [n] being the
    next free identity. *)
Definition deleteEach_step (value : value) (acc : object * nat) (key : string)
  : object * nat :=
  match Get acc.1 key with
  | VArray _ elems =>
      (<[key := VArray acc.2
                  (Array_filter (λ item, strict_not_equals item value) elems)]> acc.1,
       S acc.2)
  | x =>
      if strict_equals x value then (base.delete key acc.1, acc.2) else acc
  end.

(** The calls that change a cached store, and the states a program can
    reach with them from a new instance. *)
Inductive call :=
| CallSet (key : string) (value : value)
| CallRemove (key : string)
| CallDelete (key : string) (value : value)
| CallDeleteKey (key subKey : string)
| CallDeleteEach (value : value)
| CallClear
| CallDestroy
| CallMath (key operator : string) (value : float).

Definition perform (c : call) : M Cached.state unit :=
  match c with
  | CallSet key value => Cached.set key value
  | CallRemove key => Cached.remove key
  | CallDelete key value => Cached.delete key value
  | CallDeleteKey key subKey => Cached.deleteKey key subKey
  | CallDeleteEach value => Cached.deleteEach value
  | CallClear => Cached.clear
  | CallDestroy => Cached.destroy
  | CallMath key operator value => Cached.math key operator value ;; ret tt
  end.

Inductive reachable : Cached.state → Prop :=
| reachable_new path w this w' :
    Cached.constructor path w = Returns this w' →
    reachable (this, w')
| reachable_returns c s s' :
    reachable s → perform c s = Returns tt s' → reachable s'
| reachable_throws c e s s' :
    reachable s → perform c s = Throws e s' → reachable s'.

(** The environment after [fs.writeFileSync(path, JSON.stringify(d))]. *)
Definition written (path : string) (d : object) (w : world) : world :=
  {| files := <[path := JsonText (JSON_stringify_object d)]> (files w);
     fs_log := fs_log w ++ [FsWrite path (JsonText (JSON_stringify_object d))];
     console := console w;
     next_ref := next_ref w |}.

(** The environment after [console.error(line)]. *)
Definition logged (line : string) (w : world) : world :=
  {| files := files w;
     fs_log := fs_log w;
     console := console w ++ [line];
     next_ref := next_ref w |}.

(** The environment after [n] objects were created. *)
Definition allocated (n : nat) (w : world) : world :=
  {| files := files w;
     fs_log := fs_log w;
     console := console w;
     next_ref := n |}.

(** The state an outcome leaves behind. *)
Definition after {S A} (o : outcome S A) : option S :=
  match o with
  | Returns _ s => Some s
  | Throws _ s => Some s
  | OutsideModel => None
  end.

(** The guard of [deleteKey] and [fetchObject]: [typeof v === 'object'] and
    [v !== null]. *)
Definition passes_object_guard (v : value) : bool :=
  String.eqb (typeof v) "object" && negb (strict_equals v VNull).

(** Two calls in a row, as a caller writes them. *)
Definition set_then_get (key : string) (value : value) : M Cached.state JS.value :=
  Cached.set key value ;;
  Cached.get key.

Definition remove_then_has (key : string) : M Cached.state bool :=
  Cached.remove key ;;
  Cached.has key.

Definition reloading_set_then_get (this : Reloading.HelixiaDB) (key : string)
    (value : value) : M world JS.value :=
  Reloading.set this key value ;;
  Reloading.get this key.

(** An environment with no file. *)
Definition empty_world : world :=
  {| files := ∅; fs_log := []; console := []; next_ref := 0 |}.

(** A document with a counter, a cached store that holds it, and an
    environment whose file holds it. *)
Definition counter_document : object := {[ "counter" := VNumber 10%float ]}.

Definition counter_store : Cached.HelixiaDB :=
  {| Cached.filePath := "database.json"; Cached.data := counter_document |}.

Definition counter_world : world :=
  written "database.json" counter_document empty_world.

Definition database_json : Reloading.HelixiaDB :=
  {| Reloading.filePath := "database.json" |}.

Definition reloading_destroy_then_get (this : Reloading.HelixiaDB)
    (key : string) : M world JS.value :=
  Reloading.destroy this ;;
  Reloading.get this key.

(** A cached store with a number, a list and a mapping. *)
Definition sample_document : object :=
  {[ "n" := VNumber 5%float;
     "list" := VArray 1 [Some (VNumber 1%float); Some (VNumber 2%float)];
     "user" := VObject 2 {[ "name" := VString "ada"; "age" := VNumber 36%float ]} ]}.

Definition sample_store : Cached.HelixiaDB :=
  {| Cached.filePath := "database.json"; Cached.data := sample_document |}.

(** An environment with no file in which ten objects exist. *)
Definition sample_world : world :=
  {| files := ∅; fs_log := []; console := []; next_ref := 10 |}.

(** A list that holds a mapping and a number, and a second mapping with the
    same content as the first. *)
Definition first_twin : value := VObject 2 {[ "a" := VNumber 1%float ]}.
Definition second_twin : value := VObject 3 {[ "a" := VNumber 1%float ]}.

Definition twin_store : Cached.HelixiaDB :=
  {| Cached.filePath := "database.json";
     Cached.data := {[ "list" := VArray 1 [Some first_twin; Some (VNumber 7%float)] ]} |}.

(** The largest power of two among the numbers, a store that holds it, and
    the same store once the number was multiplied by ten. *)
Definition large : float := 0x1p1023%float.

Definition new_store : Cached.HelixiaDB :=
  {| Cached.filePath := "database.json"; Cached.data := ∅ |}.

Definition large_store : Cached.HelixiaDB :=
  {| Cached.filePath := "database.json";
     Cached.data := {[ "n" := VNumber large ]} |}.

Definition overflown_store : Cached.HelixiaDB :=
  {| Cached.filePath := "database.json";
     Cached.data := {[ "n" := VNumber infinity ]} |}.

Definition new_world : world := written "database.json" ∅ empty_world.

Definition large_world : world :=
  written "database.json" {[ "n" := VNumber large ]} new_world.

Definition overflown_world : world :=
  written "database.json" {[ "n" := VNumber infinity ]} large_world.


(** ** Vocabulary of the further properties *)

(** The arithmetic that [math] does for an operator. *)
Definition operator_function (operator : string) : option (float → float → float) :=
  if String.eqb operator "+" then Some PrimFloat.add
  else if String.eqb operator "-" then Some PrimFloat.sub
  else if String.eqb operator "*" then Some PrimFloat.mul
  else if String.eqb operator "/" then Some PrimFloat.div
  else None.

(** The file of a cached store holds what [JSON.stringify] writes for the
    document in memory. *)
Definition mirrors (s : Cached.state) : Prop :=
  files s.2 !! Cached.filePath s.1
  = Some (JsonText (JSON_stringify_object (Cached.data s.1))).

(** A key that is neither in the document nor a name of
    [Object.prototype]. *)
Definition missing (d : object) (key : string) : Prop :=
  d !! key = None ∧ inherited key = None.

(** Programs of a caller. *)
Definition clear_then_all : M Cached.state object :=
  Cached.clear ;;
  Cached.all.

Definition reloading_clear_then_all (this : Reloading.HelixiaDB) : M world object :=
  Reloading.clear this ;;
  Reloading.all this.

Definition deleteKey_then_fetchObject (key subKey : string) : M Cached.state value :=
  Cached.deleteKey key subKey ;;
  Cached.fetchObject key subKey.

Definition math_then_get (key operator : string) (value : float)
  : M Cached.state (JS.value * JS.value) :=
  let* result := Cached.math key operator value in
  let* read := Cached.get key in
  ret (result, read).

Definition backup_clear_restore (backupPath : string) : M Cached.state unit :=
  Cached.createBackup (Some backupPath) ;;
  Cached.clear ;;
  Cached.restoreBackup backupPath.

(** The environment in which the file holds the sample document. *)
Definition sample_saved_world : world :=
  written "database.json" sample_document sample_world.

(** An environment whose file is not JSON. *)
Definition garbled_world : world :=
  {| files := {[ "database.json" := NotJson "{oops" ]};
     fs_log := []; console := []; next_ref := 0 |}.

(** The environment once [fs.copyFileSync] has put the content [c] at
    [dest]. *)
Definition copied (dest : string) (c : content) (w : world) : world :=
  {| files := <[dest := c]> (files w);
     fs_log := fs_log w ++ [FsWrite dest c];
     console := console w;
     next_ref := next_ref w |}.

(** Whether the object of identity [r] occurs in the tree [v]. *)
Fixpoint occurs (r : nat) (v : value) : bool :=
  match v with
  | VArray r' elems =>
      Nat.eqb r' r
      || existsb (λ slot, match slot with Some x => occurs r x | None => false end)
           elems
  | VObject r' props =>
      Nat.eqb r' r || map_fold (λ _ x acc, occurs r x || acc) false props
  | _ => false
  end.

(** A call of [call] over any [saveData]. *)
Definition perform_over (saveData : M Cached.state unit) (c : call)
  : M Cached.state unit :=
  match c with
  | CallSet key value => CachedOver.set saveData key value
  | CallRemove key => CachedOver.remove saveData key
  | CallDelete key value => CachedOver.delete saveData key value
  | CallDeleteKey key subKey => CachedOver.deleteKey saveData key subKey
  | CallDeleteEach value => CachedOver.deleteEach saveData value
  | CallClear => CachedOver.clear saveData
  | CallDestroy => Cached.destroy
  | CallMath key operator value => CachedOver.math saveData key operator value ;; ret tt
  end.

(** [this.saveData()] on a file system that refuses the write, for want of
    the directory of the file: nothing is written. *)
Definition refused_saveData : M Cached.state unit :=
  λ s, Throws (ENOENT "open" (Cached.filePath s.1)) s.

(** One object stored under two keys, next to a number. *)
Definition shared : value := VObject 2 {[ "x" := VNumber 1%float ]}.

Definition shared_store : Cached.HelixiaDB :=
  {| Cached.filePath := "database.json";
     Cached.data := {[ "a" := shared; "b" := shared; "n" := VNumber 5%float ]} |}.

(** A store whose list has a hole, as [deleteKey("list", "1")] leaves one. *)
Definition holed_store : Cached.HelixiaDB :=
  {| Cached.filePath := "database.json";
     Cached.data :=
       {[ "list" := VArray 1 [Some (VNumber 1%float); None; Some (VNumber 3%float)] ]} |}.

(** An outcome that is not an exception. *)
Definition quiet {S A} (r : outcome S A) : Prop :=
  match r with Throws _ _ => False | _ => True end.

(** * Properties *)

(** ** Plain objects *)

Section PlainObjects.
Implicit Types (o : object) (key : string) (v : value).

Lemma Get_own o key v : o !! key = Some v → Get o key = v.
Proof. unfold Get. by intros ->. Qed.

Lemma Get_insert o key v : Get (<[key := v]> o) key = v.
Proof. apply Get_own, lookup_insert_eq. Qed.

Lemma inherited_not_array key v : inherited key = Some v → Array_isArray v = false.
Proof.
  unfold inherited. repeat case_match; intros; simplify_eq; done.
Qed.

Lemma inherited_not_number key v : inherited key = Some v → typeof v ≠ "number".
Proof.
  unfold inherited. repeat case_match; intros; simplify_eq; done.
Qed.

(** An array, a plain object or a number read at [key] is an own property:
    nothing of the kind is inherited. *)
Lemma Get_array_own o key r elems :
  Get o key = VArray r elems → o !! key = Some (VArray r elems).
Proof.
  unfold Get. destruct (o !! key) as [x|] eqn:E; [by intros ->|].
  destruct (inherited key) as [x|] eqn:I; simpl; [|done].
  intros ->. by apply inherited_not_array in I.
Qed.

Lemma Get_object_own o key r props :
  Get o key = VObject r props → o !! key = Some (VObject r props).
Proof.
  unfold Get. destruct (o !! key) as [x|] eqn:E; [by intros ->|].
  unfold inherited. repeat case_match; simpl; intros; simplify_eq.
Qed.

Lemma Get_number_own o key x :
  Get o key = VNumber x → o !! key = Some (VNumber x).
Proof.
  unfold Get. destruct (o !! key) as [y|] eqn:E; [by intros ->|].
  unfold inherited. repeat case_match; simpl; intros; simplify_eq.
Qed.

Lemma Set_own o key v x : o !! key = Some x → Set_ o key v = (<[key := v]> o, None).
Proof. unfold Set_. by intros ->. Qed.

Lemma Set_ordinary o key v :
  key ≠ "__proto__" → Set_ o key v = (<[key := v]> o, None).
Proof.
  intros Hk. unfold Set_. destruct (o !! key); [done|].
  destruct (String.eqb_spec key "__proto__"); done.
Qed.

Lemma HasProperty_own o key v : o !! key = Some v → HasProperty o key = true.
Proof. unfold HasProperty. by intros ->. Qed.

(** After [delete o[key]], [key in o] only sees what is inherited. *)
Lemma HasProperty_delete o key :
  HasProperty (base.delete key o) key = bool_decide (is_Some (inherited key)).
Proof.
  unfold HasProperty. rewrite lookup_delete_eq. by destruct (inherited key).
Qed.

(** After [o[key] = v], [key in o] holds: the key is own now or it is the
    inherited [__proto__]. *)
Lemma HasProperty_Set o key v : HasProperty (Set_ o key v).1 key = true.
Proof.
  unfold Set_, HasProperty.
  destruct (o !! key) eqn:E; simpl; [by rewrite lookup_insert_eq|].
  destruct (String.eqb_spec key "__proto__") as [->|?].
  - destruct v; simpl; by rewrite E.
  - simpl. by rewrite lookup_insert_eq.
Qed.
End PlainObjects.

(** ** The cached store, method by method *)

Ltac unfold_M :=
  unfold Cached.assign, Cached.delete_property, Cached.saveData,
    Cached.this_data, Cached.this_filePath, Cached.set_this_data, Cached.env,
    Reloading.saveData, Reloading.assign,
    fs_writeFileSync, fs_unlinkSync, fs_existsSync, fs_readFileSync,
    console_error, fresh_ref, try_catch, bind, ret, throw, outside_model in *.

Section CachedStore.
Import Cached.
Implicit Types (this : HelixiaDB) (w : world) (key : string) (v : value).

Lemma saveData_returns this w :
  saveData (this, w) = Returns tt (this, written (filePath this) (data this) w).
Proof. reflexivity. Qed.

Lemma get_returns this w key :
  get key (this, w) = Returns (or_else (Get (data this) key) VNull) (this, w).
Proof. reflexivity. Qed.

Lemma has_returns this w key :
  has key (this, w) = Returns (HasProperty (data this) key) (this, w).
Proof. reflexivity. Qed.

Lemma all_returns this w : all (this, w) = Returns (data this) (this, w).
Proof. reflexivity. Qed.

Lemma remove_returns this w key :
  remove key (this, w)
  = Returns tt (with_data this (base.delete key (data this)),
                written (filePath this) (base.delete key (data this)) w).
Proof. reflexivity. Qed.

Lemma clear_returns this w :
  clear (this, w) = Returns tt (with_data this ∅, written (filePath this) ∅ w).
Proof. reflexivity. Qed.

(** [set] rejects the two absent values and nothing else. *)
Lemma set_absent this w key v :
  strict_equals v VNull || strict_equals v VUndefined = true →
  set key v (this, w) = Throws INVALID_VALUE (this, w).
Proof. unfold set. by intros ->. Qed.

(** [set] on an own key, or on a key other than [__proto__], stores the
    value and writes the file. *)
Lemma set_returns this w key v :
  strict_equals v VNull || strict_equals v VUndefined = false →
  is_Some (data this !! key) ∨ key ≠ "__proto__" →
  set key v (this, w)
  = Returns tt (with_data this (<[key := v]> (data this)),
                written (filePath this) (<[key := v]> (data this)) w).
Proof.
  intros Hv Hk. unfold set. rewrite Hv. unfold_M. simpl.
  destruct Hk as [[x Hx]|Hk].
  - by rewrite (Set_own _ _ _ _ Hx).
  - by rewrite Set_ordinary.
Qed.

(** Whatever [set] does, the key is in the document afterwards. *)
Lemma set_then_has this w key v :
  match set key v (this, w) with
  | Returns _ s' => has key s' = Returns true s'
  | Throws e s' =>
      e = INVALID_VALUE ∧ s' = (this, w)
      ∧ strict_equals v VNull || strict_equals v VUndefined = true
  | OutsideModel => key = "__proto__"
  end.
Proof.
  unfold set.
  destruct (strict_equals v VNull || strict_equals v VUndefined) eqn:Hv;
    [done|].
  unfold_M. simpl.
  pose proof (HasProperty_Set (data this) key v) as HS.
  destruct (Set_ (data this) key v) as [d' [proto|]] eqn:E; simpl in *.
  - unfold Set_ in E. repeat case_match; simplify_eq.
    all: by apply String.eqb_eq.
  - unfold has. unfold_M. simpl. by rewrite HS.
Qed.
End CachedStore.

(** ** Falsy values, and keys that every object inherits *)

Section FalsyAndInherited.
Import Cached.
Implicit Types (this : HelixiaDB) (w : world) (key : string) (v : value).

(** [get] gives back a truthy value stored under an ordinary key. *)
Lemma set_then_get_truthy this w key v :
  truthy v = true → key ≠ "__proto__" →
  observed (set_then_get key v (this, w)) = Some (inr v).
Proof.
  intros Hv Hk. unfold set_then_get, bind.
  rewrite set_returns; [|by destruct v|by right].
  rewrite get_returns. simpl. by rewrite Get_insert; unfold or_else; rewrite Hv.
Qed.

(** [get] answers [null] for a stored value that is falsy. *)
Lemma set_then_get_falsy this w key v :
  truthy v = false →
  strict_equals v VNull || strict_equals v VUndefined = false →
  key ≠ "__proto__" →
  observed (set_then_get key v (this, w)) = Some (inr VNull).
Proof.
  intros Hv Ha Hk. unfold set_then_get, bind.
  rewrite set_returns; [|done|by right].
  rewrite get_returns. simpl. by rewrite Get_insert; unfold or_else; rewrite Hv.
Qed.

(** A new store in which a falsy value was set: the key is there, and
    [get] and [fetch] answer [null]. *)
Lemma falsy_value_state v :
  truthy v = false →
  strict_equals v VNull || strict_equals v VUndefined = false →
  ∃ s, reachable s
       ∧ data s.1 !! "k" = Some v
       ∧ has "k" s = Returns true s
       ∧ get "k" s = Returns VNull s
       ∧ fetch "k" s = Returns VNull s.
Proof.
  intros Hv Ha.
  set (this0 := {| filePath := "database.json"; data := ∅ |}).
  set (w0 := written "database.json" ∅ empty_world).
  assert (reachable (this0, w0)) as H0
    by (by apply (reachable_new "database.json" empty_world)).
  eexists. split.
  { apply (reachable_returns (CallSet "k" v) _ _ H0). simpl.
    apply set_returns; [done|by right]. }
  simpl. rewrite lookup_insert_eq. split; [done|].
  unfold fetch. rewrite has_returns, get_returns. simpl.
  rewrite (HasProperty_own _ _ v), Get_insert by apply lookup_insert_eq.
  unfold or_else. by rewrite Hv.
Qed.
End FalsyAndInherited.

(** C1 (code_bug): [set(k, v)] then [get(k)] should give back [v].  It does
    for truthy values, but for the stored values [0], [false] and the empty
    string [get] answers [null]: in every state of the cached store, and in
    the reloading store started on an empty file system. *)
Theorem C1_get_after_set_of_falsy_value (this : Cached.HelixiaDB) (w : world) :
  observed (set_then_get "k" (VNumber 0%float) (this, w)) = Some (inr VNull)
  ∧ observed (set_then_get "k" (VBool false) (this, w)) = Some (inr VNull)
  ∧ observed (set_then_get "k" (VString "") (this, w)) = Some (inr VNull)
  ∧ observed (reloading_set_then_get {| Reloading.filePath := "database.json" |}
                "k" (VNumber 0%float) empty_world) = Some (inr VNull).
Proof.
  split; [|split; [|split]]; try (by apply set_then_get_falsy).
  by vm_compute.
Qed.

(** C7 (code_bug): [has(k)] is true after [set(k, v)], whatever the key.
    After [remove(k)] it is false only for a key that [Object.prototype] does
    not define: [has] uses [in], which also sees inherited properties, so
    [has("toString")] is true right after [remove("toString")]. *)
Theorem C7_has_after_set_and_after_remove (this : Cached.HelixiaDB) (w : world)
    (key : string) (v : value) :
  match Cached.set key v (this, w) with
  | Returns _ s' => Cached.has key s' = Returns true s'
  | Throws e s' =>
      e = INVALID_VALUE ∧ s' = (this, w)
      ∧ strict_equals v VNull || strict_equals v VUndefined = true
  | OutsideModel => key = "__proto__"
  end
  ∧ observed (remove_then_has key (this, w))
    = Some (inr (bool_decide (is_Some (inherited key))))
  ∧ observed (remove_then_has "toString" (this, w)) = Some (inr true).
Proof.
  split; [apply set_then_has|].
  unfold remove_then_has, bind. rewrite !remove_returns, !has_returns.
  simpl. by rewrite !HasProperty_delete.
Qed.

(** C9: a store can be in a state where a key is present with a falsy value
    ([0], [false] or the empty string); there [has] answers [true] while
    [get] and [fetch] answer [null]. *)
Theorem C9_has_and_get_disagree :
  ∀ v, v = VNumber 0%float ∨ v = VBool false ∨ v = VString "" →
  ∃ s, reachable s
       ∧ (Cached.data s.1 !! "k" = Some v ∧ truthy v = false)
       ∧ Cached.has "k" s = Returns true s
       ∧ Cached.get "k" s = Returns VNull s
       ∧ Cached.fetch "k" s = Returns VNull s.
Proof.
  intros v Hv.
  assert (truthy v = false) as Hf by (by destruct Hv as [->|[->| ->]]).
  destruct (falsy_value_state v) as (s & ? & ? & ? & ? & ?);
    [done|by destruct Hv as [->|[->| ->]]|].
  exists s. eauto 10.
Qed.

Lemma C9_has_and_get_disagree_witness :
  ∃ s, reachable s
       ∧ (Cached.data s.1 !! "k" = Some (VNumber 0%float)
          ∧ truthy (VNumber 0%float) = false)
       ∧ Cached.has "k" s = Returns true s
       ∧ Cached.get "k" s = Returns VNull s
       ∧ Cached.fetch "k" s = Returns VNull s.
Proof. apply (C9_has_and_get_disagree (VNumber 0%float)). by left. Defined.

(** ** The reloading store: what a load does *)

Section ReloadingStore.
Import Reloading.
Implicit Types (this : HelixiaDB) (w : world) (key : string) (data : object).

Lemma reloading_saveData_returns this data w :
  saveData this data w = Returns tt (written (filePath this) data w).
Proof. reflexivity. Qed.

Local Arguments JSON_parse : simpl never.

Lemma JSON_parse_object members n :
  JSON_parse (JObject members) n
  = (VObject (parse_members members ∅ n).2 (parse_members members ∅ n).1,
     S (parse_members members ∅ n).2).
Proof.
  unfold JSON_parse; fold JSON_parse.
  change ((fix parse_members (l : list (string * json)) (acc : object) (n : nat)
             {struct l} : object * nat := _) members ∅ n)
    with (parse_members members ∅ n).
  by destruct (parse_members members ∅ n).
Qed.

(** The file holds a JSON object: its members are parsed. *)
Lemma loadData_json this w members :
  files w !! filePath this = Some (JsonText (JObject members)) →
  loadData this w
  = Returns (parse_members members ∅ (next_ref w)).1
      (allocated (S (parse_members members ∅ (next_ref w)).2) w).
Proof.
  intros Hf. unfold loadData, JSON_parse_text. unfold_M.
  repeat (progress (simpl; rewrite ?Hf)). by rewrite JSON_parse_object.
Qed.

(** There is no file: it is created with the empty document. *)
Lemma loadData_missing this w :
  files w !! filePath this = None →
  loadData this w = Returns ∅ (written (filePath this) ∅ w).
Proof. intros Hf. unfold loadData. unfold_M. by rewrite Hf. Qed.

(** The file is not JSON: the error is logged and the document is empty. *)
Lemma loadData_not_json this w raw :
  files w !! filePath this = Some (NotJson raw) →
  loadData this w = Returns ∅ (logged (message INVALID_JSON) w).
Proof.
  intros Hf. unfold loadData, JSON_parse_text. unfold_M.
  by repeat (progress (simpl; rewrite ?Hf)).
Qed.

(** A load writes nothing when the file is there, and one empty document
    when it is not; it never removes a file. *)
Lemma loadData_effect this w data w1 :
  loadData this w = Returns data w1 →
  (is_Some (files w !! filePath this) → files w1 = files w ∧ fs_log w1 = fs_log w)
  ∧ (files w !! filePath this = None →
     data = ∅ ∧ w1 = written (filePath this) ∅ w).
Proof.
  intros Hl. destruct (files w !! filePath this) as [[j|raw]|] eqn:Hf.
  - split; [intros _|done].
    unfold loadData, JSON_parse_text in Hl. unfold_M.
    repeat (progress (simpl in Hl; rewrite ?Hf in Hl)).
    destruct (JSON_parse j (next_ref w)) as [v n].
    destruct v; simplify_eq; done.
  - rewrite (loadData_not_json _ _ raw) in Hl by done. by simplify_eq.
  - rewrite loadData_missing in Hl by done. simplify_eq.
    split; [by intros [??]|done].
Qed.
End ReloadingStore.

(** C2 (code_bug): dividing by zero should fail and leave the number as it
    is.  The reloading variant stops before the division (the error it
    raises is the ReferenceError of the unbound name [DatabaseError], which
    it logs) and writes nothing.  The cached variant has no such check: it
    divides, stores the quotient, writes the file and returns the
    quotient. *)
Theorem C2_math_division_by_zero
    (this : Cached.HelixiaDB) (w : world) (key : string) (x : float)
    (store : Reloading.HelixiaDB) (w0 w1 : world) (data : object) :
  Cached.data this !! key = Some (VNumber x) →
  Reloading.loadData store w0 = Returns data w1 →
  data !! key = Some (VNumber x) →
  Cached.math key "/" 0%float (this, w)
  = Returns (VNumber (x / 0))
      (Cached.with_data this (<[key := VNumber (x / 0)]> (Cached.data this)),
       written (Cached.filePath this)
         (<[key := VNumber (x / 0)]> (Cached.data this)) w)
  ∧ Reloading.math store key "/" 0%float w0
    = Returns VNull (logged (message (ReferenceError "DatabaseError")) w1).
Proof.
  intros Hthis Hload Hdata. split.
  - unfold Cached.math, Cached.compound_assign. unfold_M.
    repeat (progress (simpl; rewrite ?(Get_own _ _ _ Hthis),
                               ?(Set_own _ _ _ _ Hthis))).
    by rewrite Get_insert.
  - unfold Reloading.math, Reloading.new_DatabaseError. unfold_M.
    by repeat (progress (simpl; rewrite ?Hload, ?(Get_own _ _ _ Hdata))).
Qed.

Lemma C2_math_division_by_zero_witness :
  Cached.math "counter" "/" 0%float (counter_store, empty_world)
  = Returns (VNumber infinity)
      (Cached.with_data counter_store {[ "counter" := VNumber infinity ]},
       written "database.json" {[ "counter" := VNumber infinity ]} empty_world)
  ∧ Reloading.math database_json "counter" "/" 0%float counter_world
    = Returns VNull
        (logged "DatabaseError is not defined" (allocated 1 counter_world)).
Proof.
  apply (C2_math_division_by_zero counter_store empty_world "counter" 10%float
           database_json counter_world (allocated 1 counter_world)
           counter_document); by vm_compute.
Defined.

(** ** Shape checks *)

Section ShapeChecks.
Import Cached.
Implicit Types (this : HelixiaDB) (w : world) (key subKey : string) (v : value).

(** What the guard lets through: arrays, plain objects and
    [Object.prototype]. *)
Lemma passes_object_guard_spec v :
  passes_object_guard v = true
  ↔ (∃ r elems, v = VArray r elems) ∨ (∃ r props, v = VObject r props)
    ∨ v = VNative ObjectPrototype.
Proof.
  split.
  - destruct v as [| | | | | | |[|]]; try done; eauto.
  - intros [(?&?&->)|[(?&?&->)| ->]]; done.
Qed.

(** A key that is not in the document and is not [__proto__] is stopped by
    the guard: what is read is [undefined] or an inherited function. *)
Lemma absent_key_stopped (d : object) key :
  d !! key = None → key ≠ "__proto__" → passes_object_guard (Get d key) = false.
Proof.
  intros Hd Hk. unfold Get, inherited. rewrite Hd.
  destruct (String.eqb_spec key "__proto__"); [done|].
  by destruct (existsb _ _).
Qed.

Lemma guard_condition v :
  negb (String.eqb (typeof v) "object") || strict_equals v VNull
  = negb (passes_object_guard v).
Proof.
  unfold passes_object_guard.
  by destruct (String.eqb (typeof v) "object"), (strict_equals v VNull).
Qed.

Lemma deleteKey_stopped this w key subKey :
  passes_object_guard (Get (data this) key) = false →
  deleteKey key subKey (this, w) = Throws OBJECT_NOT_FOUND (this, w).
Proof.
  intros Hg. unfold deleteKey. unfold_M. simpl.
  by rewrite guard_condition, Hg.
Qed.

Lemma fetchObject_stopped this w key subKey :
  passes_object_guard (Get (data this) key) = false →
  fetchObject key subKey (this, w) = Throws OBJECT_NOT_FOUND (this, w).
Proof.
  intros Hg. unfold fetchObject. unfold_M. simpl.
  by rewrite guard_condition, Hg.
Qed.

Lemma deleteKey_object this w key subKey r props :
  data this !! key = Some (VObject r props) →
  deleteKey key subKey (this, w)
  = Returns tt
      (with_data this
         (changed_in_place (VObject r (base.delete subKey props)) (data this)),
       written (filePath this)
         (changed_in_place (VObject r (base.delete subKey props)) (data this)) w).
Proof.
  intros Hd. unfold deleteKey, delete_member. unfold_M.
  by repeat (progress (simpl; rewrite ?(Get_own _ _ _ Hd))).
Qed.

Lemma fetchObject_object this w key subKey r props :
  data this !! key = Some (VObject r props) →
  fetchObject key subKey (this, w)
  = Returns (or_else (Get props subKey) VNull) (this, w).
Proof.
  intros Hd. unfold fetchObject, get_member. unfold_M.
  by repeat (progress (simpl; rewrite ?(Get_own _ _ _ Hd))).
Qed.

Lemma deleteKey_array this w key subKey r elems :
  data this !! key = Some (VArray r elems) →
  deleteKey key subKey (this, w)
  = match Array_delete elems subKey with
    | inl msg => Throws (TypeError msg) (this, w)
    | inr elems' =>
        Returns tt
          (with_data this (changed_in_place (VArray r elems') (data this)),
           written (filePath this)
             (changed_in_place (VArray r elems') (data this)) w)
    end.
Proof.
  intros Hd. unfold deleteKey, delete_member. unfold_M.
  repeat (progress (simpl; rewrite ?(Get_own _ _ _ Hd))).
  by destruct (Array_delete elems subKey).
Qed.

Lemma fetchObject_array this w key subKey r elems :
  data this !! key = Some (VArray r elems) →
  fetchObject key subKey (this, w)
  = match Array_get elems subKey with
    | Some v => Returns (or_else v VNull) (this, w)
    | None => OutsideModel
    end.
Proof.
  intros Hd. unfold fetchObject, get_member. unfold_M.
  repeat (progress (simpl; rewrite ?(Get_own _ _ _ Hd))).
  by destruct (Array_get elems subKey).
Qed.

Lemma delete_stopped this w key v :
  Array_isArray (Get (data this) key) = false →
  delete key v (this, w) = Throws ARRAY_NOT_FOUND (this, w).
Proof. intros Hg. unfold delete. unfold_M. simpl. by rewrite Hg. Qed.

Lemma delete_array this w key v r elems :
  data this !! key = Some (VArray r elems) →
  let filtered :=
    VArray (next_ref w) (Array_filter (λ item, strict_not_equals item v) elems) in
  delete key v (this, w)
  = Returns tt
      (with_data this (<[key := filtered]> (data this)),
       written (filePath this) (<[key := filtered]> (data this))
         (allocated (S (next_ref w)) w)).
Proof.
  intros Hd. unfold delete, filter_not_equal. unfold_M.
  by repeat (progress (simpl; rewrite ?(Get_own _ _ _ Hd), ?(Set_own _ _ _ _ Hd))).
Qed.
End ShapeChecks.

(** C3 (counterexample): a sequence is not a mapping, yet [fetchObject] and
    [deleteKey] accept it: [typeof] of an array is ['object'].  On the list
    [[1, 2]] the call [fetchObject("list", "0")] returns [1], and
    [deleteKey("list", "0")] returns after leaving a hole in the list. *)
Lemma C3_sequence_passes_the_guard :
  (∀ r props, Get sample_document "list" ≠ VObject r props)
  ∧ Cached.fetchObject "list" "0" (sample_store, sample_world)
    = Returns (VNumber 1%float) (sample_store, sample_world)
  ∧ observed (Cached.deleteKey "list" "0" (sample_store, sample_world))
    = Some (inr tt)
  ∧ (∀ s', Cached.deleteKey "list" "0" (sample_store, sample_world)
           = Returns tt s' →
           Cached.data s'.1 !! "list"
           = Some (VArray 1 [None; Some (VNumber 2%float)])).
Proof.
  split; [by vm_compute|].
  split; [by vm_compute|].
  rewrite (deleteKey_array _ _ _ _ 1 [Some (VNumber 1%float); Some (VNumber 2%float)])
    by (by vm_compute).
  split; [done|]. intros s' Hs'. simpl in Hs'. simplify_eq. simpl.
  vm_compute; reflexivity.
Qed.

(** C3 (amended): [deleteKey] and [fetchObject] fail with [OBJECT_NOT_FOUND],
    and change nothing, when what is read at the key is a string, a number, a
    boolean, [null], [undefined] or a function; that is the case of every
    key that is absent, [__proto__] apart.  On a mapping [deleteKey] removes
    the sub-key from it and writes the file.  A sequence is let through.
    Each part holds in every state of the store, whatever else the document
    holds. *)
Theorem C3_object_guard (this : Cached.HelixiaDB) (w : world) (subKey : string) :
  (∀ key, passes_object_guard (Get (Cached.data this) key) = false →
     Cached.deleteKey key subKey (this, w) = Throws OBJECT_NOT_FOUND (this, w)
     ∧ Cached.fetchObject key subKey (this, w) = Throws OBJECT_NOT_FOUND (this, w))
  ∧ (∀ v, passes_object_guard v = false
          ↔ typeof v = "string" ∨ typeof v = "number" ∨ typeof v = "boolean"
            ∨ v = VNull ∨ v = VUndefined ∨ typeof v = "function")
  ∧ (∀ k, Cached.data this !! k = None → k ≠ "__proto__" →
          passes_object_guard (Get (Cached.data this) k) = false)
  ∧ (∀ v, passes_object_guard v = false →
          ∀ r' elems props', v ≠ VArray r' elems ∧ v ≠ VObject r' props')
  ∧ (∀ key r props, Cached.data this !! key = Some (VObject r props) →
       ∃ this' w',
         Cached.deleteKey key subKey (this, w) = Returns tt (this', w')
         ∧ Cached.data this' !! key = Some (VObject r (base.delete subKey props))
         ∧ base.delete subKey props !! subKey = None
         ∧ (∀ k, k ≠ subKey → base.delete subKey props !! k = props !! k)
         ∧ files w' !! Cached.filePath this
           = Some (JsonText (JSON_stringify_object (Cached.data this'))))
  ∧ (∀ k r' elems, Cached.data this !! k = Some (VArray r' elems) →
       passes_object_guard (Get (Cached.data this) k) = true
       ∧ observed (Cached.deleteKey k subKey (this, w)) ≠ Some (inl OBJECT_NOT_FOUND)
       ∧ observed (Cached.fetchObject k subKey (this, w)) ≠ Some (inl OBJECT_NOT_FOUND)).
Proof.
  split; [|split; [|split; [|split; [|split]]]].
  - intros key Hg. by rewrite deleteKey_stopped, fetchObject_stopped.
  - intros v. destruct v as [| | | | | | |[|]]; vm_compute; split; intros H;
      try done; try tauto;
      repeat (destruct H as [H|H]; try discriminate H); discriminate H.
  - intros k. apply absent_key_stopped.
  - intros v Hv r' elems props'. split; intros ->; done.
  - intros key r props Hobj.
    eexists _, _. split; [by apply deleteKey_object|]. simpl.
    rewrite lookup_fmap, Hobj. simpl.
    rewrite Nat.eqb_refl, lookup_insert_eq, lookup_delete_eq.
    split; [done|]. split; [done|]. split; [|done].
    intros k Hk. by rewrite lookup_delete_ne.
  - intros k r' elems Hk. rewrite (Get_own _ _ _ Hk). split; [done|].
    rewrite (deleteKey_array _ _ _ _ _ _ Hk), (fetchObject_array _ _ _ _ _ _ Hk).
    destruct (Array_delete elems subKey), (Array_get elems subKey); done.
Qed.

Lemma C3_object_guard_witness :
  (Cached.deleteKey "counter" "name" (counter_store, empty_world)
   = Throws OBJECT_NOT_FOUND (counter_store, empty_world)
   ∧ Cached.fetchObject "counter" "name" (counter_store, empty_world)
     = Throws OBJECT_NOT_FOUND (counter_store, empty_world))
  ∧ (Cached.deleteKey "n" "name" (sample_store, sample_world)
     = Throws OBJECT_NOT_FOUND (sample_store, sample_world)
     ∧ Cached.fetchObject "n" "name" (sample_store, sample_world)
       = Throws OBJECT_NOT_FOUND (sample_store, sample_world))
  ∧ ∃ this' w',
      Cached.deleteKey "user" "name" (sample_store, sample_world)
      = Returns tt (this', w')
      ∧ Cached.data this' !! "user"
        = Some (VObject 2 (base.delete "name"
                  {[ "name" := VString "ada"; "age" := VNumber 36%float ]})).
Proof.
  split.
  { apply (proj1 (C3_object_guard counter_store empty_world "name") "counter").
    vm_compute; reflexivity. }
  split.
  { apply (proj1 (C3_object_guard sample_store sample_world "name") "n").
    vm_compute; reflexivity. }
  destruct (C3_object_guard sample_store sample_world "name")
    as (_ & _ & _ & _ & H & _).
  destruct (H "user" 2 {[ "name" := VString "ada"; "age" := VNumber 36%float ]})
    as (this' & w' & H2 & H3 & _); [vm_compute; reflexivity|].
  exists this', w'. split; [exact H2|exact H3].
Defined.

(** C4: [delete(key, value)] on something that is not a sequence fails with
    [ARRAY_NOT_FOUND], and neither the cached document nor the file change.
    The reloading variant logs the error instead of raising it; all it does
    to the disk is what its load does, which writes the empty document when
    there is no file yet. *)
Theorem C4_delete_on_non_sequence
    (this : Cached.HelixiaDB) (w : world) (key : string) (value : value)
    (store : Reloading.HelixiaDB) (w0 w1 : world) (data : object) :
  Array_isArray (Get (Cached.data this) key) = false →
  Reloading.loadData store w0 = Returns data w1 →
  Array_isArray (Get data key) = false →
  Cached.delete key value (this, w) = Throws ARRAY_NOT_FOUND (this, w)
  ∧ ∃ w', Reloading.delete store key value w0 = Returns tt w'
          ∧ console w' = (console w1 ++ [message ARRAY_NOT_FOUND])%list
          ∧ files w' = files w1 ∧ fs_log w' = fs_log w1
          ∧ document_on_disk w' (Reloading.filePath store)
            = document_on_disk w0 (Reloading.filePath store)
          ∧ (is_Some (files w0 !! Reloading.filePath store) →
             files w' = files w0 ∧ fs_log w' = fs_log w0).
Proof.
  intros Hthis Hload Hdata. split; [by apply delete_stopped|].
  exists (logged (message ARRAY_NOT_FOUND) w1).
  split.
  { unfold Reloading.delete. unfold_M.
    by repeat (progress (simpl; rewrite ?Hload, ?Hdata)). }
  destruct (loadData_effect _ _ _ _ Hload) as [Hsome Hnone].
  do 3 (split; [done|]). split; [|done].
  unfold document_on_disk. simpl.
  destruct (files w0 !! Reloading.filePath store) as [c|] eqn:Hf.
  - destruct Hsome as [-> _]; [done|]. by rewrite Hf.
  - destruct Hnone as [_ ->]; [done|]. simpl. by rewrite lookup_insert_eq.
Qed.

Lemma C4_delete_on_non_sequence_witness :
  Cached.delete "counter" (VNumber 10%float) (counter_store, sample_world)
  = Throws ARRAY_NOT_FOUND (counter_store, sample_world)
  ∧ ∃ w', Reloading.delete database_json "counter" (VNumber 10%float) counter_world
          = Returns tt w'
          ∧ console w' = ["The requested key is not an array."]
          ∧ files w' = files counter_world.
Proof.
  destruct (C4_delete_on_non_sequence counter_store sample_world "counter"
              (VNumber 10%float) database_json counter_world
              (allocated 1 counter_world) counter_document)
    as (H1 & w' & H2 & H3 & H4 & _);
    [vm_compute; reflexivity..|].
  split; [exact H1|]. exists w'.
  split; [exact H2|]. split; [exact H3|exact H4].
Defined.

(** ** Reading after [destroy] *)

Section Destroy.
Implicit Types (w : world) (key subKey : string).

(** The read-only methods of the cached store do not look at the
    environment. *)
Lemma fetchObject_reads_memory (this : Cached.HelixiaDB) w w' key subKey :
  observed (Cached.fetchObject key subKey (this, w'))
  = observed (Cached.fetchObject key subKey (this, w)).
Proof.
  unfold Cached.fetchObject, get_member. unfold_M. simpl.
  destruct (negb _ || _); [done|].
  destruct (Get (Cached.data this) key) as [| | | | |r elems|r props|[|]];
    simpl; try done.
  by destruct (Array_get elems subKey).
Qed.

Lemma fetchArray_reads_memory (this : Cached.HelixiaDB) w w' key (index : float) :
  observed (Cached.fetchArray key index (this, w'))
  = observed (Cached.fetchArray key index (this, w)).
Proof.
  unfold Cached.fetchArray, get_element. unfold_M. simpl.
  destruct (negb _); [done|].
  by destruct (Get (Cached.data this) key) as [| | | | |r elems|r props|[|]].
Qed.

Lemma cached_destroy_outcome (this : Cached.HelixiaDB) w :
  Cached.destroy (this, w)
  = match files w !! Cached.filePath this with
    | Some _ =>
        Returns tt
          (this,
           {| files := base.delete (Cached.filePath this) (files w);
              fs_log := fs_log w ++ [FsUnlink (Cached.filePath this)];
              console := console w;
              next_ref := next_ref w |})
    | None => Throws (ENOENT "unlink" (Cached.filePath this)) (this, w)
    end.
Proof.
  unfold Cached.destroy. unfold_M. simpl.
  by destruct (files w !! Cached.filePath this).
Qed.

Lemma reloading_destroy_outcome (store : Reloading.HelixiaDB) w :
  ∃ w', Reloading.destroy store w = Returns tt w'
        ∧ files w' !! Reloading.filePath store = None.
Proof.
  unfold Reloading.destroy. unfold_M.
  destruct (files w !! Reloading.filePath store) eqn:Hf; simpl.
  - eexists. split; [done|]. simpl. apply lookup_delete_eq.
  - eexists. split; [done|]. done.
Qed.
End Destroy.

(** C8 (counterexample): the reloading store keeps no document in memory.
    With [counter = 10] in the file, [get("counter")] is [10]; after
    [destroy()] the same instance answers [null]. *)
Lemma C8_reloading_store_reads_the_file :
  observed (Reloading.get database_json "counter" counter_world)
  = Some (inr (VNumber 10%float))
  ∧ observed (reloading_destroy_then_get database_json "counter" counter_world)
    = Some (inr VNull).
Proof. split; vm_compute; reflexivity. Qed.

(** C8 (amended): [destroy()] removes the file.  The cached store keeps its
    document, and every read-only method ([get], [fetch], [has], [all],
    [fetchObject] and [fetchArray]) answers after it as it did before.  The
    reloading store has nothing in memory: its next read finds no file,
    writes an empty one and sees the empty document. *)
Theorem C8_destroy (this : Cached.HelixiaDB) (w : world)
    (store : Reloading.HelixiaDB) (w0 : world) :
  (∃ w', after (Cached.destroy (this, w)) = Some (this, w')
     ∧ files w' !! Cached.filePath this = None
     ∧ (∀ key subKey index,
          observed (Cached.get key (this, w')) = observed (Cached.get key (this, w))
          ∧ observed (Cached.fetch key (this, w'))
            = observed (Cached.fetch key (this, w))
          ∧ observed (Cached.has key (this, w')) = observed (Cached.has key (this, w))
          ∧ observed (Cached.all (this, w')) = observed (Cached.all (this, w))
          ∧ observed (Cached.fetchObject key subKey (this, w'))
            = observed (Cached.fetchObject key subKey (this, w))
          ∧ observed (Cached.fetchArray key index (this, w'))
            = observed (Cached.fetchArray key index (this, w))))
  ∧ (∃ w0', Reloading.destroy store w0 = Returns tt w0'
       ∧ files w0' !! Reloading.filePath store = None
       ∧ Reloading.all store w0'
         = Returns ∅ (written (Reloading.filePath store) ∅ w0')
       ∧ (∀ key, Reloading.get store key w0'
                 = Returns (or_else (Get ∅ key) VNull)
                     (written (Reloading.filePath store) ∅ w0'))).
Proof.
  split.
  - rewrite cached_destroy_outcome.
    destruct (files w !! Cached.filePath this) eqn:Hf; simpl.
    + eexists. split; [done|]. simpl. split; [apply lookup_delete_eq|].
      intros key subKey index.
      split; [done|]. split; [done|]. split; [done|]. split; [done|].
      split; [apply fetchObject_reads_memory|apply fetchArray_reads_memory].
    + exists w. split; [done|]. split; [done|]. done.
  - destruct (reloading_destroy_outcome store w0) as (w0' & Hd & Hf).
    exists w0'. split; [done|]. split; [done|].
    unfold Reloading.all, Reloading.get. unfold_M.
    rewrite (loadData_missing _ _ Hf). done.
Qed.

(** ** The loop of [deleteEach] *)

Section DeleteEach.
Implicit Types (w : world) (key : string) (d : object) (v value : value).

Local Arguments strict_equals : simpl never.

Lemma allocated_same w : allocated (next_ref w) w = w.
Proof. by destruct w. Qed.

Lemma with_data_same (this : Cached.HelixiaDB) :
  Cached.with_data this (Cached.data this) = this.
Proof. by destruct this. Qed.

(** Both variants run the same rounds. *)
Lemma cached_deleteEach_body (this : Cached.HelixiaDB) w value key :
  Cached.deleteEach_body value key (this, w)
  = Returns tt
      (Cached.with_data this
         (deleteEach_step value (Cached.data this, next_ref w) key).1,
       allocated (deleteEach_step value (Cached.data this, next_ref w) key).2 w).
Proof.
  unfold Cached.deleteEach_body, deleteEach_step, filter_not_equal. unfold_M.
  simpl.
  destruct (Get (Cached.data this) key) as [| | | | |r elems|r props|n] eqn:HG.
  6: { apply Get_array_own in HG.
       by repeat (progress (simpl; rewrite ?(Set_own _ _ _ _ HG))). }
  all: match goal with
       | |- context [strict_equals ?a ?b] => destruct (strict_equals a b)
       end; simpl; by rewrite ?allocated_same, ?with_data_same.
Qed.

Lemma cached_forEach value keys : ∀ (this : Cached.HelixiaDB) w,
  forEach keys (Cached.deleteEach_body value) (this, w)
  = Returns tt
      (Cached.with_data this
         (foldl (deleteEach_step value) (Cached.data this, next_ref w) keys).1,
       allocated (foldl (deleteEach_step value) (Cached.data this, next_ref w) keys).2 w).
Proof.
  induction keys as [|key keys IH]; intros this w; simpl.
  - by rewrite allocated_same, with_data_same.
  - unfold bind. rewrite cached_deleteEach_body, IH. simpl.
    by destruct (deleteEach_step value (Cached.data this, next_ref w) key).
Qed.

Lemma reloading_deleteEach_body d w value key :
  Reloading.deleteEach_body value d key w
  = Returns (deleteEach_step value (d, next_ref w) key).1
      (allocated (deleteEach_step value (d, next_ref w) key).2 w).
Proof.
  unfold Reloading.deleteEach_body, deleteEach_step, filter_not_equal,
    Reloading.assign.
  unfold_M. simpl.
  destruct (Get d key) as [| | | | |r elems|r props|n] eqn:HG.
  6: { apply Get_array_own in HG. simpl. by rewrite (Set_own _ _ _ _ HG). }
  all: match goal with
       | |- context [strict_equals ?a ?b] => destruct (strict_equals a b)
       end; simpl; by rewrite ?allocated_same.
Qed.

Lemma reloading_forEach value keys : ∀ d w,
  Reloading.forEach_local keys (Reloading.deleteEach_body value) d w
  = Returns (foldl (deleteEach_step value) (d, next_ref w) keys).1
      (allocated (foldl (deleteEach_step value) (d, next_ref w) keys).2 w).
Proof.
  induction keys as [|key keys IH]; intros d w; simpl.
  - by rewrite allocated_same.
  - unfold bind. rewrite reloading_deleteEach_body, IH. simpl.
    by destruct (deleteEach_step value (d, next_ref w) key).
Qed.

(** A round only touches its own key. *)
Lemma deleteEach_step_other value d n key k :
  k ≠ key → (deleteEach_step value (d, n) key).1 !! k = d !! k.
Proof.
  intros Hk. unfold deleteEach_step. simpl.
  destruct (Get d key);
    try match goal with
        | |- context [strict_equals ?a ?b] => destruct (strict_equals a b)
        end; simpl;
    by rewrite ?lookup_insert_ne, ?lookup_delete_ne.
Qed.

Lemma deleteEach_step_entry value d n key :
  deleteEach_entry value (d !! key) ((deleteEach_step value (d, n) key).1 !! key).
Proof.
  unfold deleteEach_step, deleteEach_entry, Get. simpl.
  destruct (d !! key) as [x|] eqn:Hd; simpl.
  - destruct x;
      try match goal with
          | |- context [strict_equals ?a ?b] => destruct (strict_equals a b)
          end; simpl;
      rewrite ?lookup_insert_eq, ?lookup_delete_eq, ?Hd; eauto.
  - destruct (inherited key) as [x|] eqn:Hi; simpl.
    + pose proof (inherited_not_array _ _ Hi).
      destruct x; try done;
        match goal with
        | |- context [strict_equals ?a ?b] => destruct (strict_equals a b)
        end; simpl;
        by rewrite ?lookup_delete_eq, ?Hd.
    + destruct (strict_equals VUndefined value); simpl;
        by rewrite ?lookup_delete_eq, ?Hd.
Qed.

(** The rounds over distinct keys: each key of the list gets its entry
    treated once, the other keys are left alone. *)
Lemma foldl_deleteEach_step value keys : ∀ d n,
  NoDup keys →
  (∀ k, k ∈ keys →
        deleteEach_entry value (d !! k)
          ((foldl (deleteEach_step value) (d, n) keys).1 !! k))
  ∧ (∀ k, k ∉ keys → (foldl (deleteEach_step value) (d, n) keys).1 !! k = d !! k).
Proof.
  induction keys as [|key keys IH]; intros d n Hnd.
  - split; [by intros k ?%elem_of_nil|done].
  - apply NoDup_cons in Hnd as [Hkey Hnd]. simpl.
    destruct (deleteEach_step value (d, n) key) as [d1 n1] eqn:Hstep.
    destruct (IH d1 n1 Hnd) as [Hin Hout].
    assert (d1 = (deleteEach_step value (d, n) key).1) as Hd1 by by rewrite Hstep.
    split.
    + intros k [->|Hk]%elem_of_cons.
      * rewrite Hout, Hd1 by done. apply deleteEach_step_entry.
      * assert (k ≠ key) as Hne by (by intros ->).
        rewrite <- (deleteEach_step_other value d n key k Hne), <- Hd1. by apply Hin.
    + intros k [Hne Hk]%not_elem_of_cons.
      rewrite Hout, Hd1 by done. by apply deleteEach_step_other.
Qed.

(** The keys of an object are distinct, and a key outside of them has no
    entry. *)
Lemma deleteEach_entries value d n k :
  deleteEach_entry value (d !! k)
    ((foldl (deleteEach_step value) (d, n) (Object_keys d)).1 !! k).
Proof.
  destruct (foldl_deleteEach_step value (Object_keys d) d n) as [Hin Hout];
    [apply NoDup_fst_map_to_list|].
  destruct (decide (k ∈ Object_keys d)) as [Hk|Hk]; [by apply Hin|].
  rewrite Hout by done.
  destruct (d !! k) as [x|] eqn:Hd; [|done].
  destruct Hk. unfold Object_keys. apply list_elem_of_fmap.
  exists (k, x). split; [done|]. by apply elem_of_map_to_list.
Qed.
End DeleteEach.

(** ** Strict equality *)

Section StrictEquality.
Implicit Types (e v : value) (elems : list (option value)).

Lemma strict_equals_cases e v :
  strict_equals e v = true →
  (is_primitive e = true ∧ is_primitive v = true) ∨ same_reference e v = true.
Proof. destruct e, v; simpl; auto; discriminate. Qed.

Lemma strict_equals_object e v :
  is_primitive e = false → strict_equals e v = same_reference e v.
Proof. by destruct e, v. Qed.

Lemma elem_of_Array_filter (p : value → bool) elems e :
  Some e ∈ Array_filter p elems ↔ Some e ∈ elems ∧ p e = true.
Proof.
  unfold Array_filter. rewrite !list_elem_of_In, filter_In. done.
Qed.

(** What [filter(item => item !== value)] keeps and what it drops. *)
Lemma filter_keeps_other_objects elems e v :
  Some e ∈ elems → is_primitive e = false → same_reference e v = false →
  Some e ∈ Array_filter (λ item, strict_not_equals item v) elems.
Proof.
  intros He Hp Hr. apply elem_of_Array_filter. split; [done|].
  unfold strict_not_equals. by rewrite strict_equals_object, Hr.
Qed.

Lemma filter_drops_only_equal elems e v :
  Some e ∈ elems →
  Some e ∉ Array_filter (λ item, strict_not_equals item v) elems →
  strict_equals e v = true
  ∧ ((is_primitive e = true ∧ is_primitive v = true) ∨ same_reference e v = true).
Proof.
  intros He Hn.
  assert (strict_equals e v = true) as Heq.
  { destruct (strict_equals e v) eqn:E; [done|]. destruct Hn.
    apply elem_of_Array_filter. split; [done|].
    unfold strict_not_equals. by rewrite E. }
  split; [done|]. by apply strict_equals_cases.
Qed.
End StrictEquality.

Section DeleteEachMethod.
Implicit Types (w : world) (key : string) (d : object) (value : value).

Lemma cached_deleteEach_returns (this : Cached.HelixiaDB) w value :
  ∃ d' n',
    Cached.deleteEach value (this, w)
    = Returns tt
        (Cached.with_data this d',
         written (Cached.filePath this) d' (allocated n' w))
    ∧ ∀ k, deleteEach_entry value (Cached.data this !! k) (d' !! k).
Proof.
  unfold Cached.deleteEach.
  exists (foldl (deleteEach_step value) (Cached.data this, next_ref w)
            (Object_keys (Cached.data this))).1,
         (foldl (deleteEach_step value) (Cached.data this, next_ref w)
            (Object_keys (Cached.data this))).2.
  split; [|intros k; apply deleteEach_entries].
  unfold bind at 1. unfold Cached.this_data at 1. unfold bind.
  by rewrite cached_forEach, saveData_returns.
Qed.

Lemma reloading_deleteEach_returns (store : Reloading.HelixiaDB) w0 w1 d value :
  Reloading.loadData store w0 = Returns d w1 →
  ∃ d' n',
    Reloading.deleteEach store value w0
    = Returns tt (written (Reloading.filePath store) d' (allocated n' w1))
    ∧ ∀ k, deleteEach_entry value (d !! k) (d' !! k).
Proof.
  intros Hload. unfold Reloading.deleteEach.
  exists (foldl (deleteEach_step value) (d, next_ref w1) (Object_keys d)).1,
         (foldl (deleteEach_step value) (d, next_ref w1) (Object_keys d)).2.
  split; [|intros k; apply deleteEach_entries].
  unfold try_catch, bind. by rewrite Hload, reloading_forEach.
Qed.
End DeleteEachMethod.

(** C5 (counterexample): a reloading store whose file does not exist yet
    writes twice in one [deleteEach]: the load creates the file with the
    empty document, and the method then writes the document again. *)
Lemma C5_reloading_store_writes_twice :
  files empty_world !! "database.json" = None
  ∧ ∃ w', Reloading.deleteEach database_json (VNumber 1%float) empty_world
          = Returns tt w'
          ∧ fs_log w'
            = [FsWrite "database.json" (JsonText (JObject []));
               FsWrite "database.json" (JsonText (JObject []))].
Proof.
  split; [done|]. eexists. split; vm_compute; reflexivity.
Qed.

(** C5 (amended): one call of [deleteEach(value)] treats every entry of the
    document: a sequence loses the elements that are [===] to [value], an
    entry that is not a sequence and is [===] to [value] is removed, any
    other entry stays as it is, and no entry appears.  The document is
    written once, when the loop is over.  In the reloading variant the load
    that precedes the loop writes too when there is no file yet. *)
Theorem C5_deleteEach
    (this : Cached.HelixiaDB) (w : world) (value : value)
    (store : Reloading.HelixiaDB) (w0 w1 : world) (data : object) :
  Reloading.loadData store w0 = Returns data w1 →
  (∃ d' w',
     Cached.deleteEach value (this, w) = Returns tt (Cached.with_data this d', w')
     ∧ (∀ k, deleteEach_entry value (Cached.data this !! k) (d' !! k))
     ∧ fs_log w'
       = (fs_log w
          ++ [FsWrite (Cached.filePath this) (JsonText (JSON_stringify_object d'))])%list
     ∧ files w' !! Cached.filePath this
       = Some (JsonText (JSON_stringify_object d')))
  ∧ (∃ d' w',
       Reloading.deleteEach store value w0 = Returns tt w'
       ∧ (∀ k, deleteEach_entry value (data !! k) (d' !! k))
       ∧ fs_log w'
         = (fs_log w1
            ++ [FsWrite (Reloading.filePath store)
                  (JsonText (JSON_stringify_object d'))])%list
       ∧ files w' !! Reloading.filePath store
         = Some (JsonText (JSON_stringify_object d'))
       ∧ (is_Some (files w0 !! Reloading.filePath store) → fs_log w1 = fs_log w0)
       ∧ (files w0 !! Reloading.filePath store = None →
          fs_log w1
          = (fs_log w0
             ++ [FsWrite (Reloading.filePath store)
                   (JsonText (JSON_stringify_object ∅))])%list)).
Proof.
  intros Hload. split.
  - destruct (cached_deleteEach_returns this w value) as (d' & n' & Hrun & Hent).
    eexists _, _. split; [exact Hrun|]. split; [exact Hent|]. simpl.
    split; [done|]. apply lookup_insert_eq.
  - destruct (reloading_deleteEach_returns store w0 w1 data value Hload)
      as (d' & n' & Hrun & Hent).
    destruct (loadData_effect _ _ _ _ Hload) as [Hsome Hnone].
    eexists _, _. split; [exact Hrun|]. split; [exact Hent|]. simpl.
    split; [done|]. split; [apply lookup_insert_eq|].
    split; [by intros [_ ?]%Hsome|]. by intros [_ ->]%Hnone.
Qed.

Lemma C5_deleteEach_witness :
  ∃ d' w',
    Cached.deleteEach (VNumber 5%float) (sample_store, sample_world)
    = Returns tt (Cached.with_data sample_store d', w')
    ∧ deleteEach_entry (VNumber 5%float) (sample_document !! "n") (d' !! "n")
    ∧ deleteEach_entry (VNumber 5%float) (sample_document !! "list") (d' !! "list").
Proof.
  destruct (C5_deleteEach sample_store sample_world (VNumber 5%float)
              database_json counter_world (allocated 1 counter_world)
              counter_document)
    as ((d' & w' & H1 & H2 & _) & _); [vm_compute; reflexivity|].
  exists d', w'. split; [exact H1|]. split; [exact (H2 "n")|exact (H2 "list")].
Defined.

(** C10: [delete] and [deleteEach] compare with [===].  An element that is a
    mapping or a sequence stays in the list unless it is the very object
    given as [value], whatever its content; an element that goes away is
    [===] to [value]: a primitive equal to it, or the same object. *)
Theorem C10_elements_compared_by_identity
    (this : Cached.HelixiaDB) (w : world) (key : string) (value : value)
    (r : nat) (elems : list (option JS.value)) :
  Cached.data this !! key = Some (VArray r elems) →
  let kept := Array_filter (λ item, strict_not_equals item value) elems in
  (∃ s', Cached.delete key value (this, w) = Returns tt s'
         ∧ Cached.data s'.1 !! key = Some (VArray (next_ref w) kept))
  ∧ (∃ s' r', Cached.deleteEach value (this, w) = Returns tt s'
              ∧ Cached.data s'.1 !! key = Some (VArray r' kept))
  ∧ (∀ e, Some e ∈ elems → is_primitive e = false →
          same_reference e value = false → Some e ∈ kept)
  ∧ (∀ e, Some e ∈ elems → Some e ∉ kept →
          strict_equals e value = true
          ∧ ((is_primitive e = true ∧ is_primitive value = true)
             ∨ same_reference e value = true)).
Proof.
  intros Hd kept. split; [|split; [|split]].
  - eexists. split; [by apply (delete_array _ _ _ _ r elems)|].
    simpl. apply lookup_insert_eq.
  - destruct (cached_deleteEach_returns this w value) as (d' & n' & Hrun & Hent).
    specialize (Hent key). rewrite Hd in Hent. destruct Hent as [r' Hr'].
    eexists _, r'. split; [exact Hrun|]. exact Hr'.
  - intros e. apply filter_keeps_other_objects.
  - intros e. apply filter_drops_only_equal.
Qed.

Lemma C10_elements_compared_by_identity_witness :
  deep_equal first_twin second_twin
  ∧ same_reference first_twin second_twin = false
  ∧ ∃ s', Cached.delete "list" second_twin (twin_store, sample_world)
          = Returns tt s'
          ∧ Cached.data s'.1 !! "list"
            = Some (VArray 10 [Some first_twin; Some (VNumber 7%float)]).
Proof.
  split; [vm_compute; reflexivity|]. split; [reflexivity|].
  destruct (C10_elements_compared_by_identity twin_store sample_world "list"
              second_twin 1 [Some first_twin; Some (VNumber 7%float)])
    as ((s' & H1 & H2) & _); [vm_compute; reflexivity|].
  exists s'. split; [exact H1|exact H2].
Defined.


(** ** Writing a document and reading it back *)

Section RoundTrip.
Implicit Types (v x : value) (props d : object) (elems : list (option value)).

Local Arguments JSON_parse : simpl never.

Lemma json_safe_props props :
  map_fold (λ _ x acc, json_safe x && acc) true props = true
  ↔ ∀ k x, props !! k = Some x → json_safe x = true.
Proof.
  rewrite map_fold_foldr.
  assert (∀ l : list (string * value),
            foldr (uncurry (λ _ x acc, json_safe x && acc)) true l = true
            ↔ ∀ k x, (k, x) ∈ l → json_safe x = true) as Hl.
  { induction l as [|[k x] l IH]; simpl.
    - split; [by intros _ ?? ?%elem_of_nil|done].
    - rewrite andb_true_iff, IH. split.
      + intros [Hx Hl] k' x' [?|?]%elem_of_cons; simplify_eq; eauto.
      + intros H. split; [apply (H k); left|intros k' x' ?; apply (H k'); by right]. }
  rewrite Hl. split; intros H k x ?; apply (H k); by apply elem_of_map_to_list.
Qed.

Lemma value_size_props r props k x :
  props !! k = Some x → value_size x < value_size (VObject r props).
Proof.
  intros Hk. simpl. rewrite map_fold_foldr.
  apply elem_of_map_to_list in Hk.
  induction (map_to_list props) as [|[k' x'] l IH]; simpl.
  - by apply elem_of_nil in Hk.
  - apply elem_of_cons in Hk as [?|Hk]; simplify_eq; [lia|].
    specialize (IH Hk). lia.
Qed.

Lemma value_size_elems r elems x :
  Some x ∈ elems → value_size x < value_size (VArray r elems).
Proof.
  intros Hx. simpl.
  induction elems as [|slot l IH]; simpl.
  - by apply elem_of_nil in Hx.
  - apply elem_of_cons in Hx as [<-|Hx]; [lia|].
    specialize (IH Hx). lia.
Qed.

Lemma value_size_ind (P : value → Prop) :
  (∀ v, (∀ x, value_size x < value_size v → P x) → P v) → ∀ v, P v.
Proof.
  intros H v. remember (value_size v) as n eqn:Hn. revert v Hn.
  induction n as [n IH] using lt_wf_ind. intros v ->.
  apply H. intros x Hx. by apply (IH (value_size x)).
Qed.

Lemma JSON_parse_array items n :
  JSON_parse (JArray items) n
  = (VArray (parse_items items n).2 (parse_items items n).1,
     S (parse_items items n).2).
Proof.
  unfold JSON_parse; fold JSON_parse.
  change ((fix parse_items (l : list json) (n : nat) {struct l}
             : list (option value) * nat := _) items n)
    with (parse_items items n).
  by destruct (parse_items items n).
Qed.

Lemma parse_items_erase elems :
  (∀ slot, slot ∈ elems →
     ∃ x j, slot = Some x ∧ JSON_stringify x = Some j
            ∧ ∀ n, erase (JSON_parse j n).1 = erase x) →
  ∀ n, List.map (option_map erase) (parse_items (List.map slot_json elems) n).1
       = List.map (option_map erase) elems.
Proof.
  induction elems as [|slot l IH]; intros H n; [done|].
  destruct (H slot) as (x & j & -> & Hj & Hx); [by left|].
  simpl. rewrite Hj. simpl.
  specialize (Hx n). destruct (JSON_parse j n) as [v n1]. simpl in Hx.
  specialize (IH (λ s Hs, H s (list_elem_of_further _ _ _ Hs)) n1).
  destruct (parse_items (List.map slot_json l) n1) as [vs n2]. simpl in *.
  by rewrite Hx, IH.
Qed.

Lemma parse_members_erase (E : json → value) l : ∀ acc n,
  NoDup l.*1 →
  (∀ k j, (k, j) ∈ l → ∀ n, erase (JSON_parse j n).1 = E j) →
  erase <$> (parse_members l acc n).1 = (E <$> list_to_map l) ∪ (erase <$> acc).
Proof.
  induction l as [|[k j] l IH]; intros acc n Hnd HE.
  - simpl. by rewrite fmap_empty, (left_id_L ∅ (∪)).
  - simpl in Hnd. apply NoDup_cons in Hnd as [Hk Hnd]. simpl.
    pose proof (HE k j (list_elem_of_here _ _) n) as Hj.
    destruct (JSON_parse j n) as [v n1]. simpl in Hj.
    rewrite IH; [|done|intros k' j' ?; apply (HE k'); by right].
    rewrite !fmap_insert, Hj.
    rewrite <- insert_union_r, insert_union_l; [done|].
    rewrite lookup_fmap. by rewrite (not_elem_of_list_to_map_1 _ _ Hk).
Qed.

Lemma props_round_trip props :
  (∀ k x, props !! k = Some x →
     ∃ j, JSON_stringify x = Some j ∧ ∀ n, erase (JSON_parse j n).1 = erase x) →
  ∀ n, erase <$> (parse_members (map_to_list (omap JSON_stringify props)) ∅ n).1
       = erase <$> props.
Proof.
  intros H n.
  rewrite (parse_members_erase (λ j, erase (JSON_parse j 0).1)).
  - rewrite list_to_map_to_list, fmap_empty, (right_id_L ∅ (∪)).
    apply map_eq. intros k. rewrite !lookup_fmap, lookup_omap.
    destruct (props !! k) as [x|] eqn:Hk; [|done]. simpl.
    destruct (H k x Hk) as (j & -> & Hx). simpl. by rewrite Hx.
  - apply NoDup_fst_map_to_list.
  - intros k j Hkj%elem_of_map_to_list m.
    apply lookup_omap_Some in Hkj as (x & Hj & Hk).
    destruct (H k x Hk) as (j' & Hj' & Hx). simplify_eq.
    by rewrite !Hx.
Qed.

Lemma json_of_safe_number f :
  json_safe (VNumber f) = true → json_of_number f = JNumber f.
Proof. unfold json_of_number. simpl. by destruct (PrimFloat.classify f). Qed.

(** Writing a safe value and reading it back gives the same tree. *)
Lemma value_round_trip v :
  json_safe v = true →
  ∃ j, JSON_stringify v = Some j ∧ ∀ n, erase (JSON_parse j n).1 = erase v.
Proof.
  induction v as [v IH] using value_size_ind. intros Hsafe.
  destruct v as [| |b|f|s|r elems|r props|nat]; try done.
  - by exists JNull.
  - by exists (JBool b).
  - exists (JNumber f). simpl. by rewrite json_of_safe_number.
  - by exists (JString s).
  - eexists. split; [done|]. intros n. rewrite JSON_parse_array. simpl.
    f_equal. apply parse_items_erase. intros slot Hslot.
    simpl in Hsafe. rewrite forallb_forall in Hsafe.
    specialize (Hsafe slot (proj1 (list_elem_of_In _ _) Hslot)).
    destruct slot as [x|]; [|done].
    destruct (IH x) as (j & Hj & Hx); [by apply (value_size_elems r)|done|].
    by exists x, j.
  - eexists. split; [done|]. intros n. rewrite JSON_parse_object. simpl.
    f_equal. apply props_round_trip. intros k x Hk.
    apply IH; [by apply (value_size_props r _ k)|].
    simpl in Hsafe. by apply (proj1 (json_safe_props props) Hsafe k).
Qed.

Lemma document_round_trip d n :
  json_safe_document d = true →
  deep_equal_documents
    (parse_members (map_to_list (omap JSON_stringify d)) ∅ n).1 d.
Proof.
  intros Hsafe. apply props_round_trip. intros k x Hk.
  apply value_round_trip. by apply (proj1 (json_safe_props d) Hsafe k).
Qed.
End RoundTrip.

Section Reload.
Implicit Types (w : world) (d : object).

Local Arguments JSON_parse : simpl never.

(** The constructor on a file that holds a JSON object. *)
Lemma constructor_json path w members :
  files w !! path = Some (JsonText (JObject members)) →
  Cached.constructor path w
  = Returns
      {| Cached.filePath := path;
         Cached.data := (parse_members members ∅ (next_ref w)).1 |}
      (allocated (S (parse_members members ∅ (next_ref w)).2) w).
Proof.
  intros Hf. unfold Cached.constructor, Cached.loadData, JSON_parse_text.
  unfold_M.
  repeat (progress (simpl; rewrite ?Hf)). by rewrite JSON_parse_object.
Qed.
End Reload.

(** C6 (counterexample): a store is created, [set("n", 2^1023)] and
    [math("n", "*", 10)] are called.  The document in memory holds
    [Infinity]; JSON has no such number and the file holds [null].  A new
    store on the same file has [n = null]. *)
Lemma C6_overflow_is_written_as_null :
  reachable (overflown_store, overflown_world)
  ∧ Cached.data overflown_store !! "n" = Some (VNumber infinity)
  ∧ files overflown_world !! "database.json"
    = Some (JsonText (JObject [("n", JNull)]))
  ∧ ∃ this2 w2,
      Cached.constructor "database.json" overflown_world = Returns this2 w2
      ∧ observed (Cached.all (this2, w2)) = Some (inr {[ "n" := VNull ]})
      ∧ ¬ deep_equal_documents (Cached.data this2) (Cached.data overflown_store).
Proof.
  split.
  { apply (reachable_returns (CallMath "n" "*" 10%float) (large_store, large_world));
      [|vm_compute; reflexivity].
    apply (reachable_returns (CallSet "n" (VNumber large)) (new_store, new_world));
      [|vm_compute; reflexivity].
    apply (reachable_new "database.json" empty_world). vm_compute; reflexivity. }
  split; [vm_compute; reflexivity|]. split; [vm_compute; reflexivity|].
  eexists _, _. split; [vm_compute; reflexivity|].
  split; [vm_compute; reflexivity|].
  intros H. apply (f_equal (λ m : object, m !! "n")) in H.
  vm_compute in H. discriminate.
Qed.

(** C6 (amended): when the document holds only what JSON can denote (no
    [undefined], function or hole, and no number that is infinite, [NaN] or
    [-0]) a new store on the file that a store has just written holds a
    document deep-equal to it, and [all()] returns it. *)
Theorem C6_round_trip (this : Cached.HelixiaDB) (w : world) :
  json_safe_document (Cached.data this) = true →
  ∃ w1 this2 w2,
    Cached.saveData (this, w) = Returns tt (this, w1)
    ∧ Cached.constructor (Cached.filePath this) w1 = Returns this2 w2
    ∧ Cached.all (this2, w2) = Returns (Cached.data this2) (this2, w2)
    ∧ deep_equal_documents (Cached.data this2) (Cached.data this).
Proof.
  intros Hsafe. eexists _, _, _. split; [apply saveData_returns|].
  split.
  { apply constructor_json. simpl. apply lookup_insert_eq. }
  split; [done|]. simpl. by apply document_round_trip.
Qed.

Lemma C6_round_trip_witness :
  ∃ w1 this2 w2,
    Cached.saveData (sample_store, sample_world) = Returns tt (sample_store, w1)
    ∧ Cached.constructor "database.json" w1 = Returns this2 w2
    ∧ Cached.all (this2, w2) = Returns (Cached.data this2) (this2, w2)
    ∧ deep_equal_documents (Cached.data this2) sample_document.
Proof.
  apply (C6_round_trip sample_store sample_world). vm_compute; reflexivity.
Defined.

(** * Further properties *)

(** ** Writing and removing a key *)

(** X1: [set(key, value)] either rejects or stores.  A [null] or [undefined]
    value is rejected before anything is read or written: the cached
    variant throws INVALID_VALUE, the reloading variant logs its message and
    returns.  In the cached variant any other value, under a key other than
    [__proto__], is stored under that key, every other key keeps its value,
    and the file is written once with the new document. *)
Theorem set_stores_or_rejects
    (this : Cached.HelixiaDB) (w : world) (key : string) (v : value)
    (store : Reloading.HelixiaDB) (w0 : world) :
  key ≠ "__proto__" →
  if strict_equals v VNull || strict_equals v VUndefined
  then
    Cached.set key v (this, w) = Throws INVALID_VALUE (this, w)
    ∧ Reloading.set store key v w0 = Returns tt (logged (message INVALID_VALUE) w0)
  else
    ∃ this' w',
      Cached.set key v (this, w) = Returns tt (this', w')
      ∧ Cached.data this' !! key = Some v
      ∧ (∀ k, k ≠ key → Cached.data this' !! k = Cached.data this !! k)
      ∧ mirrors (this', w')
      ∧ fs_log w'
        = (fs_log w
           ++ [FsWrite (Cached.filePath this)
                 (JsonText (JSON_stringify_object (Cached.data this')))])%list.
Proof.
  intros Hk.
  destruct (strict_equals v VNull || strict_equals v VUndefined) eqn:Hv.
  - split; [by apply set_absent|].
    unfold Reloading.set. unfold_M. by rewrite Hv.
  - eexists _, _. split; [apply set_returns; [done|by right]|].
    simpl. rewrite lookup_insert_eq. split; [done|].
    split; [by intros k ?; rewrite lookup_insert_ne|].
    split; [|done]. unfold mirrors. simpl. apply lookup_insert_eq.
Qed.

Lemma set_stores_or_rejects_witness :
  (Cached.set "n" VNull (sample_store, sample_world)
   = Throws INVALID_VALUE (sample_store, sample_world)
   ∧ Reloading.set database_json "n" VNull counter_world
     = Returns tt (logged "The value provided cannot be null or undefined." counter_world))
  ∧ ∃ this' w',
      Cached.set "n" (VBool false) (sample_store, sample_world) = Returns tt (this', w')
      ∧ Cached.data this' !! "n" = Some (VBool false)
      ∧ Cached.data this' !! "list" = sample_document !! "list".
Proof.
  split.
  - apply (set_stores_or_rejects sample_store sample_world "n" VNull
             database_json counter_world). done.
  - destruct (set_stores_or_rejects sample_store sample_world "n" (VBool false)
                database_json counter_world) as (this' & w' & H1 & H2 & H3 & _);
      [done|].
    exists this', w'. split; [exact H1|]. split; [exact H2|]. by apply H3.
Defined.

(** X2: [remove(key)] always returns.  Afterwards the key is not an own key
    of the document and every other key keeps its value; the file is written
    once with the document, also when the key was not there (the instance is
    then the same as before). *)
Theorem remove_deletes_one_key (this : Cached.HelixiaDB) (w : world) (key : string) :
  ∃ this' w',
    Cached.remove key (this, w) = Returns tt (this', w')
    ∧ Cached.data this' !! key = None
    ∧ (∀ k, k ≠ key → Cached.data this' !! k = Cached.data this !! k)
    ∧ (Cached.data this !! key = None → this' = this)
    ∧ mirrors (this', w')
    ∧ fs_log w'
      = (fs_log w
         ++ [FsWrite (Cached.filePath this)
               (JsonText (JSON_stringify_object (Cached.data this')))])%list.
Proof.
  eexists _, _. split; [apply remove_returns|]. simpl.
  split; [apply lookup_delete_eq|].
  split; [by intros k ?; rewrite lookup_delete_ne|].
  split.
  { intros Hk. unfold Cached.with_data. rewrite delete_id by done. by destruct this. }
  split; [|done]. unfold mirrors. simpl. apply lookup_insert_eq.
Qed.

(** ** Clearing, and keys that are missing *)

Lemma stringify_empty : JSON_stringify_object ∅ = JObject [].
Proof. unfold JSON_stringify_object. by rewrite omap_empty, map_to_list_empty. Qed.

Lemma files_written path d w :
  files (written path d w) !! path = Some (JsonText (JSON_stringify_object d)).
Proof. apply lookup_insert_eq. Qed.

Lemma fs_log_written path d w :
  fs_log (written path d w)
  = (fs_log w ++ [FsWrite path (JsonText (JSON_stringify_object d))])%list.
Proof. done. Qed.

(** X3: after [clear()], [all()] returns the empty document and the file
    holds [{}], in both variants and whatever the document and the file were
    before; the file is written once. *)
Theorem clear_empties_the_document
    (this : Cached.HelixiaDB) (w : world) (store : Reloading.HelixiaDB) (w0 : world) :
  (∃ w', clear_then_all (this, w) = Returns ∅ (Cached.with_data this ∅, w')
         ∧ files w' !! Cached.filePath this = Some (JsonText (JObject []))
         ∧ fs_log w'
           = (fs_log w ++ [FsWrite (Cached.filePath this) (JsonText (JObject []))])%list)
  ∧ (∃ w0', reloading_clear_then_all store w0 = Returns ∅ w0'
            ∧ files w0' !! Reloading.filePath store = Some (JsonText (JObject []))
            ∧ fs_log w0'
              = (fs_log w0
                 ++ [FsWrite (Reloading.filePath store) (JsonText (JObject []))])%list).
Proof.
  split.
  - eexists. unfold clear_then_all, bind. rewrite clear_returns, all_returns.
    split; [done|]. rewrite files_written, fs_log_written, stringify_empty. done.
  - eexists. unfold reloading_clear_then_all, bind, Reloading.clear, Reloading.all.
    unfold try_catch at 1. rewrite reloading_saveData_returns.
    unfold try_catch.
    rewrite (loadData_json _ _ []);
      [|by rewrite files_written, stringify_empty].
    split; [done|].
    change (files (allocated ?n ?w)) with (files w).
    change (fs_log (allocated ?n ?w)) with (fs_log w).
    rewrite files_written, fs_log_written, stringify_empty. done.
Qed.

Lemma Get_missing (d : object) key : missing d key → Get d key = VUndefined.
Proof. intros [Hd Hi]. unfold Get. by rewrite Hd, Hi. Qed.

(** X4: a key that the document does not hold and [Object.prototype] does
    not define.  [has] answers [false], [get] and [fetch] answer [null],
    [delete] and [fetchArray] throw ARRAY_NOT_FOUND, [deleteKey] and
    [fetchObject] throw OBJECT_NOT_FOUND, [math] stops on the unbound name
    [DatabaseError]; none of them changes the instance or the environment.
    [remove] returns and leaves the document as it is. *)
Theorem missing_key_behaviour
    (this : Cached.HelixiaDB) (w : world) (key subKey operator : string)
    (value : value) (index operand : float) :
  missing (Cached.data this) key →
  Cached.has key (this, w) = Returns false (this, w)
  ∧ Cached.get key (this, w) = Returns VNull (this, w)
  ∧ Cached.fetch key (this, w) = Returns VNull (this, w)
  ∧ Cached.delete key value (this, w) = Throws ARRAY_NOT_FOUND (this, w)
  ∧ Cached.fetchArray key index (this, w) = Throws ARRAY_NOT_FOUND (this, w)
  ∧ Cached.deleteKey key subKey (this, w) = Throws OBJECT_NOT_FOUND (this, w)
  ∧ Cached.fetchObject key subKey (this, w) = Throws OBJECT_NOT_FOUND (this, w)
  ∧ Cached.math key operator operand (this, w)
    = Throws (ReferenceError "DatabaseError") (this, w)
  ∧ (∃ w', Cached.remove key (this, w) = Returns tt (this, w')).
Proof.
  intros Hm. pose proof (Get_missing _ _ Hm) as HG. destruct Hm as [Hd Hi].
  split. { rewrite has_returns. unfold HasProperty. by rewrite Hd, Hi. }
  split. { rewrite get_returns. by rewrite HG. }
  split. { unfold Cached.fetch. rewrite get_returns. by rewrite HG. }
  split. { apply delete_stopped. by rewrite HG. }
  split. { unfold Cached.fetchArray. unfold_M. simpl. by rewrite HG. }
  split. { apply deleteKey_stopped. by rewrite HG. }
  split. { apply fetchObject_stopped. by rewrite HG. }
  split. { unfold Cached.math, Cached.new_DatabaseError. unfold_M. simpl. by rewrite HG. }
  eexists. rewrite remove_returns. unfold Cached.with_data.
  rewrite delete_id by done. by destruct this.
Qed.

Lemma missing_key_behaviour_witness :
  Cached.has "zip" (sample_store, sample_world) = Returns false (sample_store, sample_world)
  ∧ Cached.get "zip" (sample_store, sample_world) = Returns VNull (sample_store, sample_world).
Proof.
  destruct (missing_key_behaviour sample_store sample_world "zip" "a" "+"
              VNull 0%float 0%float) as (H1 & H2 & _); [by vm_compute|].
  split; [exact H1|exact H2].
Defined.

(** ** Arithmetic *)

Section Math.
Local Arguments existsb : simpl never.

Lemma operator_function_known operator f :
  operator_function operator = Some f →
  (operator = "+" ∧ f = PrimFloat.add) ∨ (operator = "-" ∧ f = PrimFloat.sub)
  ∨ (operator = "*" ∧ f = PrimFloat.mul) ∨ (operator = "/" ∧ f = PrimFloat.div).
Proof.
  unfold operator_function.
  destruct (String.eqb_spec operator "+");
    [intros; simplify_eq; auto|].
  destruct (String.eqb_spec operator "-");
    [intros; simplify_eq; auto|].
  destruct (String.eqb_spec operator "*");
    [intros; simplify_eq; auto|].
  destruct (String.eqb_spec operator "/");
    [intros; simplify_eq; auto 10|done].
Qed.

Lemma operator_function_unknown operator :
  operator_function operator = None →
  existsb (String.eqb operator) ["+"; "-"; "*"; "/"] = false.
Proof.
  unfold operator_function, existsb.
  destruct (String.eqb operator "+"); [done|].
  destruct (String.eqb operator "-"); [done|].
  destruct (String.eqb operator "*"); [done|].
  by destruct (String.eqb operator "/").
Qed.

(** X5: on a key that holds a number, [math] with one of the operators
    [+], [-], [*], [/] stores the result of the floating-point operation
    under the key, writes the file with the new document and returns the
    result; a [get] that follows answers the result, or [null] when the
    result is falsy. *)
Theorem math_applies_the_operator
    (this : Cached.HelixiaDB) (w : world) (key operator : string)
    (f : float → float → float) (x value : float) :
  Cached.data this !! key = Some (VNumber x) →
  operator_function operator = Some f →
  let d' := <[key := VNumber (f x value)]> (Cached.data this) in
  Cached.math key operator value (this, w)
  = Returns (VNumber (f x value))
      (Cached.with_data this d', written (Cached.filePath this) d' w)
  ∧ observed (math_then_get key operator value (this, w))
    = Some (inr (VNumber (f x value), or_else (VNumber (f x value)) VNull)).
Proof.
  intros Hd Hop d'.
  assert (Cached.math key operator value (this, w)
          = Returns (VNumber (f x value))
              (Cached.with_data this d', written (Cached.filePath this) d' w)) as Hm.
  { unfold Cached.math, Cached.compound_assign. unfold_M.
    destruct (operator_function_known _ _ Hop) as [[-> ->]|[[-> ->]|[[-> ->]|[-> ->]]]];
      repeat (progress (simpl; rewrite ?(Get_own _ _ _ Hd), ?(Set_own _ _ _ _ Hd)));
      by rewrite Get_insert. }
  split; [exact Hm|].
  unfold math_then_get, bind. rewrite Hm, get_returns.
  unfold Cached.with_data, d'. cbn [Cached.data]. by rewrite Get_insert.
Qed.

Lemma math_applies_the_operator_witness :
  Cached.math "counter" "+" 5%float (counter_store, empty_world)
  = Returns (VNumber 15%float)
      (Cached.with_data counter_store {[ "counter" := VNumber 15%float ]},
       written "database.json" {[ "counter" := VNumber 15%float ]} empty_world)
  ∧ observed (math_then_get "counter" "+" 5%float (counter_store, empty_world))
    = Some (inr (VNumber 15%float, VNumber 15%float)).
Proof.
  apply (math_applies_the_operator counter_store empty_world "counter" "+"
           PrimFloat.add 10%float 5%float); vm_compute; reflexivity.
Defined.

(** X6: [math] on a key whose value is not a number, or with an operator
    other than [+], [-], [*], [/], changes no document.  Both variants
    evaluate [new DatabaseError(...)], a name that is bound in neither file:
    the cached variant throws that ReferenceError and leaves the instance
    and the environment as they were; the reloading variant logs its
    message and returns [null].  All the reloading variant does to the file
    system is what its load does: nothing when the file exists, and one
    write of [{}] when it does not. *)
Theorem math_rejects_before_any_change
    (this : Cached.HelixiaDB) (w : world) (key operator : string) (value : float)
    (store : Reloading.HelixiaDB) (w0 w1 : world) (data : object) :
  String.eqb (typeof (Get (Cached.data this) key)) "number" = false
  ∨ operator_function operator = None →
  Reloading.loadData store w0 = Returns data w1 →
  String.eqb (typeof (Get data key)) "number" = false
  ∨ operator_function operator = None →
  Cached.math key operator value (this, w)
  = Throws (ReferenceError "DatabaseError") (this, w)
  ∧ ∃ w2,
      Reloading.math store key operator value w0 = Returns VNull w2
      ∧ console w2 = (console w1 ++ ["DatabaseError is not defined"])%list
      ∧ (is_Some (files w0 !! Reloading.filePath store) →
         files w2 = files w0 ∧ fs_log w2 = fs_log w0)
      ∧ (files w0 !! Reloading.filePath store = None →
         files w2 = <[Reloading.filePath store := JsonText (JObject [])]> (files w0)
         ∧ fs_log w2
           = (fs_log w0
              ++ [FsWrite (Reloading.filePath store) (JsonText (JObject []))])%list).
Proof.
  intros Hc Hload Hr. split.
  - unfold Cached.math, Cached.new_DatabaseError. unfold_M. simpl.
    destruct (String.eqb (typeof (Get (Cached.data this) key)) "number") eqn:Ht;
      [|done].
    destruct Hc as [?|Hop]; [done|]. simpl.
    by rewrite (operator_function_unknown _ Hop).
  - exists (logged "DatabaseError is not defined" w1).
    destruct (loadData_effect _ _ _ _ Hload) as [Hsome Hnone].
    split; [|split; [done|split]].
    + unfold Reloading.math, Reloading.new_DatabaseError. unfold_M.
      rewrite Hload. simpl.
      destruct (String.eqb (typeof (Get data key)) "number") eqn:Ht; [|done].
      destruct Hr as [?|Hop]; [done|]. simpl.
      by rewrite (operator_function_unknown _ Hop).
    + intros Hf. by apply Hsome.
    + intros Hf. destruct (Hnone Hf) as [_ ->]. simpl.
      by rewrite stringify_empty.
Qed.

Lemma math_rejects_before_any_change_witness :
  Cached.math "list" "+" 1%float (sample_store, sample_world)
  = Throws (ReferenceError "DatabaseError") (sample_store, sample_world)
  ∧ (∃ w2,
       Reloading.math database_json "list" "+" 1%float counter_world = Returns VNull w2
       ∧ files w2 = files counter_world ∧ fs_log w2 = fs_log counter_world)
  ∧ (∃ w2,
       Reloading.math database_json "list" "+" 1%float empty_world = Returns VNull w2
       ∧ fs_log w2 = [FsWrite "database.json" (JsonText (JObject []))]).
Proof.
  destruct (math_rejects_before_any_change sample_store sample_world "list" "+" 1%float
              database_json counter_world (allocated 1 counter_world) counter_document)
    as (H1 & w2 & H2 & _ & H3 & _);
    [left; vm_compute; reflexivity|vm_compute; reflexivity
    |left; vm_compute; reflexivity|].
  destruct (math_rejects_before_any_change sample_store sample_world "list" "+" 1%float
              database_json empty_world (written "database.json" ∅ empty_world) ∅)
    as (_ & w3 & H4 & _ & _ & H5);
    [left; vm_compute; reflexivity|vm_compute; reflexivity
    |left; vm_compute; reflexivity|].
  split; [exact H1|]. split.
  - exists w2. split; [exact H2|]. apply H3. vm_compute. eauto.
  - exists w3. split; [exact H4|]. apply (proj2 (H5 ltac:(vm_compute; reflexivity))).
Defined.

End Math.

(** ** Calls that throw, calls that return *)

Section Atomicity.
Local Arguments existsb : simpl never.
Local Arguments strict_equals : simpl never.
Local Arguments String.eqb : simpl never.

Ltac run_in H :=
  unfold Cached.set, Cached.remove, Cached.delete, Cached.deleteKey, Cached.clear,
    Cached.destroy, Cached.math, Cached.compound_assign, Cached.new_DatabaseError,
    filter_not_equal, delete_member in H;
  unfold_M; simpl in H.

(** With the [saveData] of the class, the methods over [saveData] are the
    methods of the class. *)
Lemma perform_over_saveData c : perform_over Cached.saveData c = perform c.
Proof. by destruct c. Qed.

Ltac over_in H :=
  unfold perform_over, CachedOver.set, CachedOver.remove, CachedOver.delete,
    CachedOver.deleteKey, CachedOver.clear, CachedOver.math,
    Cached.destroy, Cached.compound_assign, Cached.new_DatabaseError,
    Cached.assign, Cached.delete_property, Cached.this_data, Cached.this_filePath,
    Cached.set_this_data, Cached.env, filter_not_equal, delete_member,
    fs_unlinkSync, fresh_ref, bind, ret, throw, outside_model in H;
  cbv beta iota delta [fst snd] in H.

Ltac accepted :=
  unfold perform, Cached.set, Cached.remove, Cached.delete,
    Cached.deleteKey, Cached.clear, Cached.destroy, Cached.math,
    Cached.compound_assign, Cached.new_DatabaseError, filter_not_equal, delete_member;
  unfold_M; cbv beta iota delta [fst snd].

Ltac accepted_outcome :=
  accepted;
  repeat (match goal with
          | Heq : ?t = _ |- context [?t] => rewrite Heq
          end; cbv beta iota delta [fst snd]);
  reflexivity.

Ltac settle :=
  repeat case_match; simplify_eq; try done;
  first
    [ left; split; [reflexivity|accepted_outcome]
    | right; eexists _, _; split; [eassumption|];
      split; [accepted_outcome|done] ].

(** X7: how a mutating call of the cached variant ([set], [remove],
    [delete], [deleteKey], [deleteEach], [clear], [destroy], [math]) can
    throw, whatever [this.saveData()] does.  Either a check of the method
    (or the [unlink] of [destroy]) threw, as it does when the write
    succeeds, and the instance and the environment are exactly as they
    were; or [saveData] threw, and it was
    entered with the document already changed in memory (the document that
    the call leaves when the write succeeds) and with the files, the writes
    made and the console as they were before the call. *)
Theorem a_call_throws_at_a_check_or_in_saveData
    (saveData : M Cached.state unit) (c : call) (s s' : Cached.state) (e : error) :
  perform_over saveData c s = Throws e s' →
  (s' = s ∧ perform c s = Throws e s)
  ∨ ∃ s1 s2,
      saveData s1 = Throws e s'
      ∧ perform c s = Returns tt s2
      ∧ Cached.data s1.1 = Cached.data s2.1
      ∧ Cached.filePath s1.1 = Cached.filePath s.1
      ∧ files s1.2 = files s.2 ∧ fs_log s1.2 = fs_log s.2
      ∧ console s1.2 = console s.2.
Proof.
  destruct s as [this w].
  destruct c as [key v|key|key v|key subKey|v| | |key operator operand];
    intros H.
  all: try (over_in H; settle).
  unfold perform_over, CachedOver.deleteEach in H.
  unfold bind at 1 in H. unfold Cached.this_data at 1 in H. unfold bind in H.
  rewrite cached_forEach in H.
  right. eexists _, _. split; [exact H|].
  split.
  { unfold perform, Cached.deleteEach.
    unfold bind at 1. unfold Cached.this_data at 1. unfold bind.
    rewrite cached_forEach, saveData_returns. reflexivity. }
  done.
Qed.

Lemma a_call_throws_at_a_check_or_in_saveData_witness :
  (∃ s', perform_over refused_saveData (CallDeleteKey "n" "x") (sample_store, sample_world)
         = Throws OBJECT_NOT_FOUND s'
         ∧ s' = (sample_store, sample_world))
  ∧ ∃ s',
      perform_over refused_saveData (CallSet "k" (VNumber 1%float))
        (sample_store, sample_world)
      = Throws (ENOENT "open" "database.json") s'
      ∧ Cached.data s'.1 !! "k" = Some (VNumber 1%float)
      ∧ ((s' = (sample_store, sample_world)
          ∧ perform (CallSet "k" (VNumber 1%float)) (sample_store, sample_world)
            = Throws (ENOENT "open" "database.json") (sample_store, sample_world))
         ∨ ∃ s1 s2,
             refused_saveData s1 = Throws (ENOENT "open" "database.json") s'
             ∧ perform (CallSet "k" (VNumber 1%float)) (sample_store, sample_world)
               = Returns tt s2
             ∧ Cached.data s1.1 = Cached.data s2.1
             ∧ Cached.filePath s1.1 = "database.json"
             ∧ files s1.2 = ∅ ∧ fs_log s1.2 = [] ∧ console s1.2 = []).
Proof.
  split.
  - eexists. split; [vm_compute; reflexivity|]. reflexivity.
  - eexists. split; [vm_compute; reflexivity|].
    split; [vm_compute; reflexivity|].
    apply (a_call_throws_at_a_check_or_in_saveData refused_saveData
             (CallSet "k" (VNumber 1%float)) (sample_store, sample_world)).
    vm_compute; reflexivity.
Defined.

(** X8: after a mutating call of the cached variant other than [destroy]
    has returned, the path of the instance is the same, the file holds the
    text of the document in memory, and a new instance can be built from
    that file. *)
Theorem a_call_that_returns_leaves_the_file_in_step (c : call) (s s' : Cached.state) :
  c ≠ CallDestroy →
  perform c s = Returns tt s' →
  Cached.filePath s'.1 = Cached.filePath s.1
  ∧ mirrors s'
  ∧ ∃ this2 w2, Cached.constructor (Cached.filePath s'.1) s'.2 = Returns this2 w2.
Proof.
  intros Hc H.
  assert (Cached.filePath s'.1 = Cached.filePath s.1 ∧ mirrors s') as [Hp Hm].
  { destruct s as [this w]. unfold mirrors.
    destruct c as [key v|key|key v|key subKey|v| | |key operator operand];
      simpl in H; try done.
    - run_in H. repeat case_match; simplify_eq; simpl; split; [done|apply lookup_insert_eq].
    - run_in H. simplify_eq. simpl. split; [done|apply lookup_insert_eq].
    - run_in H. repeat case_match; simplify_eq; simpl; split; try done; apply lookup_insert_eq.
    - run_in H. repeat case_match; simplify_eq; simpl; split; try done; apply lookup_insert_eq.
    - destruct (cached_deleteEach_returns this w v) as (d' & n' & Hrun & _).
      rewrite Hrun in H. simplify_eq. simpl. split; [done|apply lookup_insert_eq].
    - run_in H. simplify_eq. simpl. split; [done|apply lookup_insert_eq].
    - unfold bind in H. run_in H.
      repeat case_match; simplify_eq; simpl; split; try done; apply lookup_insert_eq. }
  split; [done|]. split; [done|].
  eexists _, _. apply constructor_json. exact Hm.
Qed.

Lemma a_call_that_returns_leaves_the_file_in_step_witness :
  ∃ s',
    perform (CallSet "n" (VNumber 1%float)) (sample_store, sample_world) = Returns tt s'
    ∧ mirrors s'.
Proof.
  eexists. split; [vm_compute; reflexivity|].
  apply (a_call_that_returns_leaves_the_file_in_step
           (CallSet "n" (VNumber 1%float)) (sample_store, sample_world));
    [discriminate|vm_compute; reflexivity].
Defined.
End Atomicity.

(** ** Loading *)

Section Loading.
Local Arguments JSON_parse : simpl never.
Local Arguments strict_equals : simpl never.
Local Arguments String.eqb : simpl never.

(** X9: what [new HelixiaDB(path)] does in the cached variant, by the
    content of the file.  No file: the instance starts empty and the file is
    created with [{}].  A file that is not JSON: INVALID_JSON is thrown and
    nothing is written.  A file that holds a JSON object: the document is
    the parsed object and the file system is untouched. *)
Theorem constructor_outcomes (path : string) (w : world) :
  match files w !! path with
  | None =>
      Cached.constructor path w
      = Returns {| Cached.filePath := path; Cached.data := ∅ |} (written path ∅ w)
  | Some (NotJson raw) => Cached.constructor path w = Throws INVALID_JSON w
  | Some (JsonText (JObject members)) =>
      ∃ this w',
        Cached.constructor path w = Returns this w'
        ∧ Cached.filePath this = path
        ∧ Cached.data this = (parse_members members ∅ (next_ref w)).1
        ∧ files w' = files w ∧ fs_log w' = fs_log w ∧ console w' = console w
  | Some (JsonText _) => Cached.constructor path w = OutsideModel
  end.
Proof.
  destruct (files w !! path) as [[j|raw]|] eqn:Hf.
  - destruct j as [| | | | |members].
    6: { eexists _, _. split; [by apply constructor_json|]. done. }
    all: unfold Cached.constructor, Cached.loadData, JSON_parse_text; unfold_M;
      repeat (progress (simpl; rewrite ?Hf)); try done.
    unfold JSON_parse; fold JSON_parse.
    by destruct ((fix parse_items (l : list json) (n : nat) {struct l}
                   : list (option value) * nat := _) items (next_ref w)).
  - unfold Cached.constructor, Cached.loadData, JSON_parse_text. unfold_M.
    by repeat (progress (simpl; rewrite ?Hf)).
  - unfold Cached.constructor, Cached.loadData. unfold_M.
    by repeat (progress (simpl; rewrite ?Hf)).
Qed.

Lemma loadData_never_throws (store : Reloading.HelixiaDB) w e w' :
  Reloading.loadData store w ≠ Throws e w'.
Proof.
  unfold Reloading.loadData, JSON_parse_text. unfold_M.
  destruct (files w !! Reloading.filePath store) as [[j|raw]|] eqn:Hf;
    repeat (progress (simpl; rewrite ?Hf)); try done.
  destruct (JSON_parse j (next_ref w)) as [v n]. by destruct v.
Qed.

(** X10: in the reloading variant a file that is not JSON reads as the
    empty document: [all()] logs the message of INVALID_JSON and returns
    [{}].  A [set(key, v)] on such a file logs the same message and then
    overwrites the file with the document that holds [key] alone. *)
Theorem reloading_set_replaces_an_unreadable_file
    (store : Reloading.HelixiaDB) (w : world) (key : string) (v : value) (raw : string) :
  files w !! Reloading.filePath store = Some (NotJson raw) →
  strict_equals v VNull || strict_equals v VUndefined = false →
  key ≠ "__proto__" →
  Reloading.all store w = Returns ∅ (logged (message INVALID_JSON) w)
  ∧ ∃ w',
      Reloading.set store key v w = Returns tt w'
      ∧ console w' = (console w ++ [message INVALID_JSON])%list
      ∧ files w' !! Reloading.filePath store
        = Some (JsonText (JSON_stringify_object {[ key := v ]})).
Proof.
  intros Hf Hv Hk. split.
  - unfold Reloading.all. unfold_M. by rewrite (loadData_not_json _ _ raw Hf).
  - eexists. unfold Reloading.set. rewrite Hv. unfold try_catch, bind.
    rewrite (loadData_not_json _ _ raw Hf), reloading_saveData_returns.
    split; [done|]. split; [done|].
    unfold Reloading.assign. rewrite Set_ordinary by done.
    cbn [fst]. rewrite insert_empty. apply lookup_insert_eq.
Qed.

Lemma reloading_set_replaces_an_unreadable_file_witness :
  Reloading.all database_json garbled_world
  = Returns ∅ (logged "The database file contains invalid JSON." garbled_world)
  ∧ ∃ w',
      Reloading.set database_json "k" (VNumber 1%float) garbled_world = Returns tt w'
      ∧ console w' = ["The database file contains invalid JSON."]
      ∧ files w' !! "database.json"
        = Some (JsonText (JSON_stringify_object {[ "k" := VNumber 1%float ]})).
Proof.
  apply (reloading_set_replaces_an_unreadable_file database_json garbled_world
           "k" (VNumber 1%float) "{oops"); [vm_compute; reflexivity|reflexivity|done].
Defined.

(** X11: the reading methods of the reloading variant ([get], [fetch],
    [has], [all], [fetchObject], [fetchArray]) never change the file system
    when the file exists: after each of them the files are the same and no
    write was made. *)
Theorem reloading_reads_leave_the_file_alone
    (store : Reloading.HelixiaDB) (w : world) (key subKey : string) (index : float) :
  is_Some (files w !! Reloading.filePath store) →
  let untouched (w' : option world) :=
    ∀ w1, w' = Some w1 → files w1 = files w ∧ fs_log w1 = fs_log w in
  untouched (after (Reloading.get store key w))
  ∧ untouched (after (Reloading.fetch store key w))
  ∧ untouched (after (Reloading.has store key w))
  ∧ untouched (after (Reloading.all store w))
  ∧ untouched (after (Reloading.fetchObject store key subKey w))
  ∧ untouched (after (Reloading.fetchArray store key index w)).
Proof.
  intros Hsome untouched. unfold untouched.
  assert (∀ data w1, Reloading.loadData store w = Returns data w1 →
                     files w1 = files w ∧ fs_log w1 = fs_log w) as Hload.
  { intros data w1 Hl. by apply (loadData_effect _ _ _ _ Hl). }
  unfold Reloading.fetch, Reloading.get, Reloading.has, Reloading.all,
    Reloading.fetchObject, Reloading.fetchArray, get_member, get_element.
  unfold_M.
  destruct (Reloading.loadData store w) as [data w1|e w1|] eqn:Hl;
    [|by apply loadData_never_throws in Hl|done].
  specialize (Hload data w1 eq_refl).
  repeat match goal with |- _ ∧ _ => split end;
    intros w2 Hw2; simpl in Hw2;
    repeat case_match; simpl in Hw2; simplify_eq; simpl; tauto.
Qed.

Lemma reloading_reads_leave_the_file_alone_witness :
  ∃ w1, after (Reloading.get database_json "counter" counter_world) = Some w1
        ∧ files w1 = files counter_world ∧ fs_log w1 = fs_log counter_world.
Proof.
  exists (allocated 1 counter_world). split; [vm_compute; reflexivity|].
  apply (proj1 (reloading_reads_leave_the_file_alone database_json counter_world
                  "counter" "a" 0%float ltac:(vm_compute; eauto))).
  vm_compute; reflexivity.
Defined.
End Loading.

(** ** Lists *)

Section Lists.
Implicit Types (elems : list (option value)) (p : value → bool).

Lemma Array_filter_idempotent p elems :
  Array_filter p (Array_filter p elems) = Array_filter p elems.
Proof.
  unfold Array_filter. induction elems as [|slot l IH]; [done|]. simpl.
  destruct slot as [x|]; [|done].
  destruct (p x) eqn:Hp; [|done]. simpl. by rewrite Hp, IH.
Qed.

Lemma Array_filter_dense p elems : None ∉ Array_filter p elems.
Proof.
  unfold Array_filter. rewrite list_elem_of_In, filter_In. by intros [_ ?].
Qed.

Lemma Array_filter_length p elems : (length (Array_filter p elems) ≤ length elems)%nat.
Proof.
  unfold Array_filter. induction elems as [|slot l IH]; simpl; [done|].
  destruct (match slot with Some x => p x | None => false end); simpl; lia.
Qed.

(** X12: [delete(key, value)] on a key that holds an array always returns.
    The array under the key is a new array that holds only elements of the
    old one, none of which is strictly equal to [value]; it
    has no hole and is not longer than the old one.  Other keys keep their
    values, the file is written, and a second [delete(key, value)] keeps the
    same elements. *)
Theorem delete_removes_every_occurrence
    (this : Cached.HelixiaDB) (w : world) (key : string) (v : value)
    (r : nat) (elems : list (option value)) :
  Cached.data this !! key = Some (VArray r elems) →
  ∃ this' w' kept,
    Cached.delete key v (this, w) = Returns tt (this', w')
    ∧ Cached.data this' !! key = Some (VArray (next_ref w) kept)
    ∧ (∀ e, Some e ∈ kept → Some e ∈ elems ∧ strict_equals e v = false)
    ∧ (None ∉ kept)
    ∧ (length kept ≤ length elems)%nat
    ∧ (∀ k, k ≠ key → Cached.data this' !! k = Cached.data this !! k)
    ∧ mirrors (this', w')
    ∧ ∃ this'' w'',
        Cached.delete key v (this', w') = Returns tt (this'', w'')
        ∧ Cached.data this'' !! key = Some (VArray (next_ref w') kept).
Proof.
  intros Hd.
  set (kept := Array_filter (λ item, strict_not_equals item v) elems).
  eexists _, _, kept. split; [by apply (delete_array _ _ _ _ r elems)|].
  cbn [Cached.data Cached.with_data]. rewrite lookup_insert_eq.
  split; [done|]. split.
  { intros e [He Hp]%elem_of_Array_filter. split; [done|].
    unfold strict_not_equals in Hp. by destruct (strict_equals e v). }
  split; [apply Array_filter_dense|]. split; [apply Array_filter_length|].
  split; [by intros k ?; rewrite lookup_insert_ne|].
  split; [apply lookup_insert_eq|].
  eexists _, _. split.
  { apply (delete_array _ _ _ _ (next_ref w) kept).
    cbn [Cached.data Cached.with_data]. apply lookup_insert_eq. }
  cbn [Cached.data Cached.with_data]. rewrite lookup_insert_eq.
  unfold kept. by rewrite Array_filter_idempotent.
Qed.

Lemma delete_removes_every_occurrence_witness :
  ∃ this' w' kept,
    Cached.delete "list" (VNumber 1%float) (sample_store, sample_world)
    = Returns tt (this', w')
    ∧ Cached.data this' !! "list" = Some (VArray 10 kept)
    ∧ (∀ e, Some e ∈ kept → Some e ∈ [Some (VNumber 1%float); Some (VNumber 2%float)]
                            ∧ strict_equals e (VNumber 1%float) = false).
Proof.
  destruct (delete_removes_every_occurrence sample_store sample_world "list"
              (VNumber 1%float) 1 [Some (VNumber 1%float); Some (VNumber 2%float)])
    as (this' & w' & kept & H1 & H2 & H3 & _); [vm_compute; reflexivity|].
  exists this', w', kept. split; [exact H1|]. split; [exact H2|exact H3].
Defined.

Lemma deleteEach_entry_after v before x :
  deleteEach_entry v before (Some x) →
  (∃ r0 elems r,
     before = Some (VArray r0 elems)
     ∧ x = VArray r (Array_filter (λ item, strict_not_equals item v) elems))
  ∨ (before = Some x ∧ Array_isArray x = false ∧ strict_equals x v = false).
Proof.
  destruct before as [y|]; [|done].
  destruct y as [| |b|f|s|r0 elems|r0 props|n]; simpl; intros H.
  6: { destruct H as [r H]. simplify_eq. left. eauto. }
  all: match type of H with
       | _ = if ?c then _ else _ => destruct c eqn:E
       end; simplify_eq; right; done.
Qed.

(** X13: [deleteEach(value)] always returns.  It adds no key; a value that
    is left and is not an array is not strictly equal to [value] and is the
    one that was there; no element of an array that is left is strictly
    equal to [value]; the file holds the new document. *)
Theorem deleteEach_leaves_nothing_equal
    (this : Cached.HelixiaDB) (w : world) (v : value) :
  ∃ this' w',
    Cached.deleteEach v (this, w) = Returns tt (this', w')
    ∧ (∀ k, Cached.data this !! k = None → Cached.data this' !! k = None)
    ∧ (∀ k x, Cached.data this' !! k = Some x → Array_isArray x = false →
              strict_equals x v = false ∧ Cached.data this !! k = Some x)
    ∧ (∀ k r es e, Cached.data this' !! k = Some (VArray r es) → Some e ∈ es →
                   strict_equals e v = false)
    ∧ mirrors (this', w').
Proof.
  destruct (cached_deleteEach_returns this w v) as (d' & n' & Hrun & Hent).
  eexists _, _. split; [exact Hrun|]. cbn [Cached.data Cached.with_data].
  split; [|split; [|split]].
  - intros k Hk. specialize (Hent k). by rewrite Hk in Hent.
  - intros k x Hx Harr. specialize (Hent k). rewrite Hx in Hent.
    apply deleteEach_entry_after in Hent
      as [(r0 & elems & r & _ & ->)|(Hb & _ & Hne)]; done.
  - intros k r es e Hx He. specialize (Hent k). rewrite Hx in Hent.
    apply deleteEach_entry_after in Hent
      as [(r0 & elems & r' & _ & Heq)|(_ & ? & _)]; [|done].
    simplify_eq. apply elem_of_Array_filter in He as [_ Hp].
    unfold strict_not_equals in Hp. by destruct (strict_equals e v).
  - apply lookup_insert_eq.
Qed.
End Lists.

(** ** Members of objects and arrays *)

Section Members.

Lemma occurs_props r (props : object) :
  map_fold (λ _ x acc, occurs r x || acc) false props = false
  ↔ ∀ k x, props !! k = Some x → occurs r x = false.
Proof.
  rewrite map_fold_foldr.
  assert (∀ l : list (string * value),
            foldr (uncurry (λ _ x acc, occurs r x || acc)) false l = false
            ↔ ∀ k x, (k, x) ∈ l → occurs r x = false) as Hl.
  { induction l as [|[k x] l IH]; simpl.
    - split; [by intros _ ?? ?%elem_of_nil|done].
    - rewrite orb_false_iff, IH. split.
      + intros [Hx Hl] k' x' [?|?]%elem_of_cons; simplify_eq; eauto.
      + intros H. split; [apply (H k); left|intros k' x' ?; apply (H k'); by right]. }
  rewrite Hl. split; intros H k x ?; apply (H k); by apply elem_of_map_to_list.
Qed.

(** A change in place leaves alone a tree in which the object does not
    occur. *)
Lemma in_place_absent r changed v : occurs r v = false → in_place r changed v = v.
Proof.
  induction v as [v IH] using value_size_ind. intros Ho.
  destruct v as [| | | | |r' elems|r' props|]; try done; simpl in *;
    apply orb_false_iff in Ho as [Hr Ho]; rewrite Hr; f_equal.
  - rewrite <- (map_id elems) at 2. apply map_ext_in.
    intros [x|] Hx; [|done]. simpl. f_equal.
    apply IH.
    + apply (value_size_elems r'). by apply list_elem_of_In.
    + destruct (occurs r x) eqn:Hox; [|done].
      assert (existsb (λ slot, match slot with Some x => occurs r x | None => false end)
                elems = true) as Hex
        by (apply existsb_exists; exists (Some x); by split).
      by rewrite Hex in Ho.
  - apply map_eq. intros k. rewrite lookup_fmap.
    destruct (props !! k) as [x|] eqn:Hk; [|done]. simpl. f_equal.
    apply IH.
    + by apply (value_size_props r' props k).
    + by apply (proj1 (occurs_props r props) Ho k).
Qed.

(** X14: on a key that holds an object, [deleteKey(key, subKey)] followed
    by [fetchObject(key, subKey)] answers [null] when [Object.prototype]
    does not define [subKey].  The object is changed in place: a key that
    holds the same object loses the sub-key as well, while a key whose value
    does not contain the object keeps its value and no key is added.  The
    call writes the file, and [fetchObject] of any other sub-key answers as
    before. *)
Theorem deleteKey_then_fetchObject_is_null
    (this : Cached.HelixiaDB) (w : world) (key subKey : string)
    (r : nat) (props : object) :
  Cached.data this !! key = Some (VObject r props) →
  inherited subKey = None →
  observed (deleteKey_then_fetchObject key subKey (this, w)) = Some (inr VNull)
  ∧ ∃ s', Cached.deleteKey key subKey (this, w) = Returns tt s'
          ∧ mirrors s'
          ∧ (∀ k props0, Cached.data this !! k = Some (VObject r props0) →
               Cached.data s'.1 !! k = Some (VObject r (base.delete subKey props))
               ∧ observed (Cached.fetchObject k subKey s') = Some (inr VNull))
          ∧ (∀ k x, Cached.data this !! k = Some x → occurs r x = false →
               Cached.data s'.1 !! k = Some x)
          ∧ (∀ k, Cached.data this !! k = None → Cached.data s'.1 !! k = None)
          ∧ (∀ other, other ≠ subKey →
               observed (Cached.fetchObject key other s')
               = observed (Cached.fetchObject key other (this, w))).
Proof.
  intros Hd Hi.
  pose proof (deleteKey_object this w key subKey r props Hd) as Hdel.
  set (props' := base.delete subKey props) in *.
  set (this' := Cached.with_data this
                  (changed_in_place (VObject r props') (Cached.data this))) in *.
  assert (∀ k props0, Cached.data this !! k = Some (VObject r props0) →
            Cached.data this' !! k = Some (VObject r props')) as Hsame.
  { intros k props0 Hk. unfold this'. simpl.
    rewrite lookup_fmap, Hk. simpl. by rewrite Nat.eqb_refl. }
  assert (∀ k props0, Cached.data this !! k = Some (VObject r props0) → ∀ w',
            observed (Cached.fetchObject k subKey (this', w')) = Some (inr VNull))
    as Hnull.
  { intros k props0 Hk w'.
    rewrite (fetchObject_object _ _ _ _ r props' (Hsame _ _ Hk)).
    unfold Get, props'. by rewrite lookup_delete_eq, Hi. }
  split.
  - unfold deleteKey_then_fetchObject, bind. rewrite Hdel.
    by apply (Hnull key props).
  - eexists. split; [exact Hdel|]. split; [apply lookup_insert_eq|].
    split. { intros k props0 Hk. split; [by apply (Hsame k props0)|by apply (Hnull k props0)]. }
    split.
    { intros k x Hk Ho. simpl. rewrite lookup_fmap, Hk. simpl.
      by rewrite in_place_absent. }
    split. { intros k Hk. simpl. by rewrite lookup_fmap, Hk. }
    intros other Hother.
    rewrite (fetchObject_object _ _ _ _ r props' (Hsame _ _ Hd)),
      (fetchObject_object _ _ _ _ r props Hd).
    unfold Get, props'. by rewrite lookup_delete_ne.
Qed.

Lemma deleteKey_then_fetchObject_is_null_witness :
  observed (deleteKey_then_fetchObject "a" "x" (shared_store, sample_world))
  = Some (inr VNull)
  ∧ ∃ s', Cached.deleteKey "a" "x" (shared_store, sample_world) = Returns tt s'
          ∧ observed (Cached.fetchObject "b" "x" (shared_store, sample_world))
            = Some (inr (VNumber 1%float))
          ∧ observed (Cached.fetchObject "b" "x" s') = Some (inr VNull)
          ∧ Cached.data s'.1 !! "n" = Some (VNumber 5%float).
Proof.
  destruct (deleteKey_then_fetchObject_is_null shared_store sample_world "a" "x"
              2 {[ "x" := VNumber 1%float ]})
    as (H1 & s' & H2 & _ & H3 & H4 & _); [vm_compute; reflexivity|reflexivity|].
  split; [exact H1|]. exists s'. split; [exact H2|].
  split; [vm_compute; reflexivity|].
  split.
  - apply (H3 "b" {[ "x" := VNumber 1%float ]}). vm_compute; reflexivity.
  - apply H4; vm_compute; reflexivity.
Defined.

(** X15: [fetchArray(key, index)] on a key that holds an array, in each
    variant.  When the number [index] is an array index whose slot holds a
    truthy value, the call returns that value; an index that is no array
    index or lies past the end, a hole, and a falsy element all give
    [null].  The cached variant changes nothing; the reloading variant reads
    the array from the file it has just loaded. *)
Theorem fetchArray_outcomes
    (this : Cached.HelixiaDB) (w : world) (key : string) (index : float)
    (store : Reloading.HelixiaDB) (w0 : world) :
  let found (elems : list (option value)) :=
    match index_of_number index with
    | Some i =>
        match elems !! i with
        | Some (Some x) => if truthy x then x else VNull
        | _ => VNull
        end
    | None => VNull
    end in
  (∀ r elems, Cached.data this !! key = Some (VArray r elems) →
     Cached.fetchArray key index (this, w) = Returns (found elems) (this, w))
  ∧ (∀ data w1 r0 elems0,
       Reloading.loadData store w0 = Returns data w1 →
       data !! key = Some (VArray r0 elems0) →
       Reloading.fetchArray store key index w0 = Returns (found elems0) w1).
Proof.
  intros found.
  assert (∀ elems, or_else (Array_at elems index) VNull = found elems) as Hf.
  { intros elems. unfold found, Array_at, or_else.
    destruct (index_of_number index) as [i|]; [|done].
    destruct (elems !! i) as [[x|]|]; done. }
  split.
  - intros r elems Hd. unfold Cached.fetchArray, get_element. unfold_M.
    repeat (progress (simpl; rewrite ?(Get_own _ _ _ Hd))). by rewrite Hf.
  - intros data w1 r0 elems0 Hload Hdata.
    unfold Reloading.fetchArray, get_element. unfold_M.
    repeat (progress (simpl; rewrite ?Hload, ?(Get_own _ _ _ Hdata))). by rewrite Hf.
Qed.

Lemma fetchArray_outcomes_witness :
  Cached.fetchArray "list" 0%float (holed_store, sample_world)
  = Returns (VNumber 1%float) (holed_store, sample_world)
  ∧ Cached.fetchArray "list" 1%float (holed_store, sample_world)
    = Returns VNull (holed_store, sample_world)
  ∧ Cached.fetchArray "list" 2%float (holed_store, sample_world)
    = Returns (VNumber 3%float) (holed_store, sample_world)
  ∧ Cached.fetchArray "list" 3%float (holed_store, sample_world)
    = Returns VNull (holed_store, sample_world)
  ∧ Cached.fetchArray "list" (-1)%float (holed_store, sample_world)
    = Returns VNull (holed_store, sample_world)
  ∧ Cached.fetchArray "list" 0.5%float (holed_store, sample_world)
    = Returns VNull (holed_store, sample_world)
  ∧ observed (Reloading.fetchArray database_json "list" 1%float sample_saved_world)
    = Some (inr (VNumber 2%float)).
Proof.
  pose proof (loadData_json database_json sample_saved_world
                [("user", JObject [("age", JNumber 36%float); ("name", JString "ada")]);
                 ("n", JNumber 5%float);
                 ("list", JArray [JNumber 1%float; JNumber 2%float])]
                ltac:(vm_compute; reflexivity)) as Hl.
  pose proof (λ index,
      proj1 (fetchArray_outcomes holed_store sample_world "list" index
               database_json sample_saved_world)
        1 [Some (VNumber 1%float); None; Some (VNumber 3%float)]
        ltac:(vm_compute; reflexivity)) as H.
  split; [exact (H 0%float)|].
  split; [exact (H 1%float)|].
  split; [exact (H 2%float)|].
  split; [exact (H 3%float)|].
  split; [exact (H (-1)%float)|].
  split; [exact (H 0.5%float)|].
  rewrite (proj2 (fetchArray_outcomes holed_store sample_world "list" 1%float
                    database_json sample_saved_world)
             _ _ 11 [Some (VNumber 1%float); Some (VNumber 2%float)]
             Hl ltac:(vm_compute; reflexivity)).
  reflexivity.
Defined.
End Members.

(** ** Backups *)

Section Backups.
Local Arguments JSON_parse : simpl never.
Local Arguments String.eqb : simpl never.
Local Arguments Reloading.loadData : simpl never.

Lemma cached_loadData_json (this : Cached.HelixiaDB) w members :
  files w !! Cached.filePath this = Some (JsonText (JObject members)) →
  Cached.loadData (this, w)
  = Returns tt
      (Cached.with_data this (parse_members members ∅ (next_ref w)).1,
       allocated (S (parse_members members ∅ (next_ref w)).2) w).
Proof.
  intros Hf. unfold Cached.loadData, JSON_parse_text. unfold_M.
  repeat (progress (simpl; rewrite ?Hf)). by rewrite JSON_parse_object.
Qed.

Lemma cached_createBackup_returns (this : Cached.HelixiaDB) w bp c :
  files w !! Cached.filePath this = Some c →
  Cached.createBackup bp (this, w)
  = Returns tt (this, copied (backup_path (Cached.filePath this) bp) c w).
Proof.
  intros Hf. unfold Cached.createBackup, fs_copyFileSync. unfold_M. simpl.
  by rewrite Hf.
Qed.

Lemma cached_restoreBackup_loads (this : Cached.HelixiaDB) w backup c :
  files w !! backup = Some c →
  Cached.restoreBackup backup (this, w)
  = Cached.loadData (this, copied (Cached.filePath this) c w).
Proof.
  intros Hf. unfold Cached.restoreBackup, fs_copyFileSync. unfold_M.
  by repeat (progress (simpl; rewrite ?Hf)).
Qed.

(** X16: a backup restores the document.  In the cached variant, when the
    file holds the document in memory and the document holds only what JSON
    can denote, [createBackup(backup)], [clear()], [restoreBackup(backup)]
    on a backup path other than the file's returns with a document
    deep-equal to the first one; the file holds its text again and so does
    the backup. *)
Theorem backup_clear_restore_round_trip
    (this : Cached.HelixiaDB) (w : world) (backup : string) :
  mirrors (this, w) →
  backup ≠ "" →
  backup ≠ Cached.filePath this →
  json_safe_document (Cached.data this) = true →
  ∃ this' w',
    backup_clear_restore backup (this, w) = Returns tt (this', w')
    ∧ deep_equal_documents (Cached.data this') (Cached.data this)
    ∧ files w' !! Cached.filePath this = files w !! Cached.filePath this
    ∧ files w' !! backup = files w !! Cached.filePath this.
Proof.
  intros Hm Hne Hpath Hsafe. unfold mirrors in Hm. simpl in Hm.
  unfold backup_clear_restore, bind.
  rewrite (cached_createBackup_returns _ _ _ _ Hm).
  assert (backup_path (Cached.filePath this) (Some backup) = backup) as ->.
  { unfold backup_path. by destruct (String.eqb_spec backup ""). }
  rewrite clear_returns.
  rewrite (cached_restoreBackup_loads _ _ backup
             (JsonText (JSON_stringify_object (Cached.data this)))).
  2: { simpl. rewrite lookup_insert_ne by done. apply lookup_insert_eq. }
  rewrite (cached_loadData_json _ _
             (map_to_list (omap JSON_stringify (Cached.data this)))).
  2: { simpl. apply lookup_insert_eq. }
  eexists _, _. split; [done|]. simpl.
  split; [by apply document_round_trip|].
  rewrite Hm, lookup_insert_eq. split; [done|].
  rewrite lookup_insert_ne by done. rewrite lookup_insert_ne by done.
  apply lookup_insert_eq.
Qed.

Lemma backup_clear_restore_round_trip_witness :
  ∃ this' w',
    backup_clear_restore "backup.json" (sample_store, sample_saved_world)
    = Returns tt (this', w')
    ∧ deep_equal_documents (Cached.data this') sample_document.
Proof.
  destruct (backup_clear_restore_round_trip sample_store sample_saved_world
              "backup.json") as (this' & w' & H1 & H2 & _);
    [vm_compute; reflexivity|done|done|vm_compute; reflexivity|].
  exists this', w'. split; [exact H1|exact H2].
Defined.

(** X17: [createBackup(backupPath)] copies the file.  The destination is
    [backupPath], or the file's path followed by [.bak] when [backupPath] is
    omitted or empty.  When the file exists both variants copy its content
    to the destination and leave every other file alone.  When it does not,
    the cached variant throws the ENOENT of the copy and the reloading
    variant logs [Failed to create backup: ] followed by its message. *)
Theorem createBackup_copies_the_file
    (this : Cached.HelixiaDB) (store : Reloading.HelixiaDB) (w w0 : world)
    (backupPath : option string) (c : content) :
  Reloading.filePath store = Cached.filePath this →
  files w !! Cached.filePath this = Some c →
  files w0 !! Cached.filePath this = None →
  let path := Cached.filePath this in
  let dest := backup_path path backupPath in
  (backup_path path None = path +:+ ".bak"
   ∧ backup_path path (Some "") = path +:+ ".bak"
   ∧ ∀ p, p ≠ "" → backup_path path (Some p) = p)
  ∧ Cached.createBackup backupPath (this, w) = Returns tt (this, copied dest c w)
  ∧ Reloading.createBackup store backupPath w = Returns tt (copied dest c w)
  ∧ files (copied dest c w) !! dest = Some c
  ∧ (∀ p, p ≠ dest → files (copied dest c w) !! p = files w !! p)
  ∧ Cached.createBackup backupPath (this, w0)
    = Throws (ENOENT "copyfile" (path +:+ "' -> '" +:+ dest)) (this, w0)
  ∧ Reloading.createBackup store backupPath w0
    = Returns tt
        (logged ("Failed to create backup: "
                 +:+ message (ENOENT "copyfile" (path +:+ "' -> '" +:+ dest))) w0).
Proof.
  intros Hpath Hf Hnone path dest.
  split.
  { split; [done|]. split; [done|]. intros p Hp. unfold backup_path.
    by destruct (String.eqb_spec p ""). }
  split; [by apply cached_createBackup_returns|].
  split.
  { unfold Reloading.createBackup, fs_copyFileSync. unfold_M. rewrite Hpath.
    by repeat (progress (simpl; rewrite ?Hf)). }
  split; [apply lookup_insert_eq|].
  split; [by intros p ?; apply lookup_insert_ne|].
  split.
  - unfold Cached.createBackup, fs_copyFileSync. unfold_M.
    by repeat (progress (simpl; rewrite ?Hnone)).
  - unfold Reloading.createBackup, fs_copyFileSync. unfold_M. rewrite Hpath.
    by repeat (progress (simpl; rewrite ?Hnone)).
Qed.

Lemma createBackup_copies_the_file_witness :
  Cached.createBackup None (sample_store, sample_saved_world)
  = Returns tt
      (sample_store,
       copied "database.json.bak" (JsonText (JSON_stringify_object sample_document))
         sample_saved_world)
  ∧ Cached.createBackup None (sample_store, sample_world)
    = Throws (ENOENT "copyfile" "database.json' -> 'database.json.bak")
        (sample_store, sample_world).
Proof.
  destruct (createBackup_copies_the_file sample_store database_json
              sample_saved_world sample_world None
              (JsonText (JSON_stringify_object sample_document)))
    as (_ & H1 & _ & _ & _ & H2 & _);
    [done|vm_compute; reflexivity|vm_compute; reflexivity|].
  split; [exact H1|exact H2].
Defined.

(** X18: [restoreBackup(backupPath)].  Without the backup file nothing is
    copied: the cached variant stops on the unbound name [DatabaseError],
    the reloading variant logs [Failed to restore backup: Backup file not
    found.] and returns.  With a backup that holds a JSON object, both
    variants overwrite the file with it; the cached variant then holds the
    parsed object as its document, the reloading variant logs nothing. *)
Theorem restoreBackup_outcomes
    (this : Cached.HelixiaDB) (store : Reloading.HelixiaDB) (w w0 : world)
    (backupPath : string) (members : list (string * json)) :
  files w !! backupPath = None →
  files w0 !! backupPath = Some (JsonText (JObject members)) →
  Cached.restoreBackup backupPath (this, w)
  = Throws (ReferenceError "DatabaseError") (this, w)
  ∧ Reloading.restoreBackup store backupPath w
    = Returns tt (logged "Failed to restore backup: Backup file not found." w)
  ∧ (∃ this' w',
       Cached.restoreBackup backupPath (this, w0) = Returns tt (this', w')
       ∧ Cached.data this' = (parse_members members ∅ (next_ref w0)).1
       ∧ files w' = <[Cached.filePath this := JsonText (JObject members)]> (files w0))
  ∧ (∃ w',
       Reloading.restoreBackup store backupPath w0 = Returns tt w'
       ∧ files w' = <[Reloading.filePath store := JsonText (JObject members)]> (files w0)
       ∧ console w' = console w0).
Proof.
  intros Hnone Hsome.
  split.
  { unfold Cached.restoreBackup, Cached.new_DatabaseError. unfold_M.
    by repeat (progress (simpl; rewrite ?Hnone)). }
  split.
  { unfold Reloading.restoreBackup. unfold_M.
    by repeat (progress (simpl; rewrite ?Hnone)). }
  split.
  - rewrite (cached_restoreBackup_loads _ _ _ _ Hsome).
    rewrite (cached_loadData_json _ _ members) by apply lookup_insert_eq.
    eexists _, _. split; [done|]. done.
  - unfold Reloading.restoreBackup, fs_copyFileSync.
    unfold try_catch, bind, fs_existsSync.
    repeat (progress (simpl; rewrite ?Hsome)).
    rewrite (loadData_json _ _ members) by apply lookup_insert_eq.
    eexists. split; [done|]. done.
Qed.

Lemma restoreBackup_outcomes_witness :
  Cached.restoreBackup "database.json" (sample_store, sample_world)
  = Throws (ReferenceError "DatabaseError") (sample_store, sample_world)
  ∧ Reloading.restoreBackup database_json "database.json" sample_world
    = Returns tt (logged "Failed to restore backup: Backup file not found." sample_world)
  ∧ ∃ this' w',
      Cached.restoreBackup "database.json" (sample_store, counter_world)
      = Returns tt (this', w')
      ∧ Cached.data this' = {[ "counter" := VNumber 10%float ]}.
Proof.
  destruct (restoreBackup_outcomes sample_store database_json sample_world
              counter_world "database.json" [("counter", JNumber 10%float)])
    as (H1 & H2 & (this' & w' & H3 & H4 & _) & _);
    [vm_compute; reflexivity|vm_compute; reflexivity|].
  split; [exact H1|]. split; [exact H2|]. exists this', w'.
  split; [exact H3|]. rewrite H4. vm_compute; reflexivity.
Defined.
End Backups.

(** ** The two variants side by side *)

Section Variants.
Implicit Types (d : object) (key : string) (v : value).

Lemma truthy_erase v : truthy (erase v) = truthy v.
Proof. by destruct v. Qed.

Lemma erase_or_else_null v : erase (or_else v VNull) = or_else (erase v) VNull.
Proof. unfold or_else. rewrite truthy_erase. by destruct (truthy v). Qed.

Lemma erase_native key x : inherited key = Some x → erase x = x.
Proof. unfold inherited. repeat case_match; intros; by simplify_eq. Qed.

Lemma deep_equal_documents_Get d1 d2 key :
  deep_equal_documents d1 d2 →
  deep_equal (Get d1 key) (Get d2 key) ∧ HasProperty d1 key = HasProperty d2 key.
Proof.
  intros Hd. apply (f_equal (λ m : object, m !! key)) in Hd.
  rewrite !lookup_fmap in Hd. unfold deep_equal, Get, HasProperty.
  destruct (d1 !! key) as [x|], (d2 !! key) as [y|]; simplify_eq/=; done.
Qed.

(** X19: the two variants agree on reads.  When the file of the reloading
    variant holds the text of the document of a cached instance, and that
    document holds only what JSON can denote, [all()] of the reloading
    variant returns a document deep-equal to it, [has(key)] gives the same
    answer as on the cached instance, and [get(key)] a deep-equal value of
    the same truthiness; the file system is untouched. *)
Theorem variants_agree_on_reads
    (this : Cached.HelixiaDB) (w : world) (store : Reloading.HelixiaDB) (key : string) :
  Reloading.filePath store = Cached.filePath this →
  mirrors (this, w) →
  json_safe_document (Cached.data this) = true →
  ∃ d w',
    Reloading.all store w = Returns d w'
    ∧ deep_equal_documents d (Cached.data this)
    ∧ files w' = files w ∧ fs_log w' = fs_log w
    ∧ Reloading.has store key w = Returns (HasProperty (Cached.data this) key) w'
    ∧ ∃ a, Reloading.get store key w = Returns a w'
           ∧ deep_equal a (or_else (Get (Cached.data this) key) VNull)
           ∧ truthy a = truthy (or_else (Get (Cached.data this) key) VNull).
Proof.
  intros Hpath Hm Hsafe. unfold mirrors in Hm. simpl in Hm. rewrite <- Hpath in Hm.
  pose proof (loadData_json store w _ Hm) as Hl.
  pose proof (document_round_trip (Cached.data this) (next_ref w) Hsafe) as Hrt.
  destruct (deep_equal_documents_Get _ _ key Hrt) as [HG HH].
  eexists _, _.
  split. { unfold Reloading.all, try_catch. by rewrite Hl. }
  split; [exact Hrt|]. split; [reflexivity|]. split; [reflexivity|].
  split. { unfold Reloading.has, try_catch, bind. rewrite Hl. by rewrite HH. }
  eexists.
  split. { unfold Reloading.get, try_catch, bind. by rewrite Hl. }
  unfold deep_equal in *. rewrite !erase_or_else_null, HG. split; [done|].
  rewrite <- (truthy_erase (or_else (Get (Cached.data this) key) VNull)).
  rewrite <- (truthy_erase (or_else _ VNull)) at 1.
  by rewrite !erase_or_else_null, HG.
Qed.

Lemma variants_agree_on_reads_witness :
  ∃ d w',
    Reloading.all database_json sample_saved_world = Returns d w'
    ∧ deep_equal_documents d sample_document
    ∧ Reloading.has database_json "user" sample_saved_world = Returns true w'.
Proof.
  destruct (variants_agree_on_reads sample_store sample_saved_world database_json "user")
    as (d & w' & H1 & H2 & _ & _ & H3 & _);
    [done|vm_compute; reflexivity|vm_compute; reflexivity|].
  exists d, w'. split; [exact H1|]. split; [exact H2|exact H3].
Defined.
End Variants.

(** ** Backups that cannot be read *)

Section UnreadableBackups.
Local Arguments JSON_parse : simpl never.
Local Arguments String.eqb : simpl never.
Local Arguments Reloading.loadData : simpl never.

(** X20: [restoreBackup] is not undone when the backup cannot be read.  With
    a backup that is not JSON the file is overwritten first and parsed
    afterwards: the cached variant throws INVALID_JSON with the database
    file already replaced by the backup's content, so the file no longer
    holds the document in memory; the reloading variant replaces the file
    as well, logs the message of INVALID_JSON and returns. *)
Theorem restoreBackup_is_not_undone
    (this : Cached.HelixiaDB) (store : Reloading.HelixiaDB) (w : world)
    (backupPath raw : string) :
  files w !! backupPath = Some (NotJson raw) →
  Cached.restoreBackup backupPath (this, w)
  = Throws INVALID_JSON (this, copied (Cached.filePath this) (NotJson raw) w)
  ∧ files (copied (Cached.filePath this) (NotJson raw) w) !! Cached.filePath this
    = Some (NotJson raw)
  ∧ ¬ mirrors (this, copied (Cached.filePath this) (NotJson raw) w)
  ∧ Reloading.restoreBackup store backupPath w
    = Returns tt
        (logged (message INVALID_JSON)
           (copied (Reloading.filePath store) (NotJson raw) w)).
Proof.
  intros Hf.
  assert (∀ path, files (copied path (NotJson raw) w) !! path = Some (NotJson raw))
    as Hc by (intros; apply lookup_insert_eq).
  split.
  { rewrite (cached_restoreBackup_loads _ _ _ _ Hf).
    unfold Cached.loadData, Cached.this_filePath, Cached.env, fs_existsSync,
      fs_readFileSync, JSON_parse_text.
    unfold_M. repeat (progress (simpl; rewrite ?Hc)). done. }
  split; [apply Hc|].
  split. { unfold mirrors. simpl. rewrite Hc. discriminate. }
  unfold Reloading.restoreBackup, fs_copyFileSync.
  unfold try_catch, bind, fs_existsSync.
  repeat (progress (simpl; rewrite ?Hf)).
  change {| files := <[Reloading.filePath store := NotJson raw]> (files w);
            fs_log := (fs_log w ++ [FsWrite (Reloading.filePath store) (NotJson raw)])%list;
            console := console w; next_ref := next_ref w |}
    with (copied (Reloading.filePath store) (NotJson raw) w).
  rewrite (loadData_not_json store _ raw (Hc _)). done.
Qed.

Lemma restoreBackup_is_not_undone_witness :
  mirrors (sample_store, copied "backup.json" (NotJson "{oops") sample_saved_world)
  ∧ Cached.restoreBackup "backup.json"
      (sample_store, copied "backup.json" (NotJson "{oops") sample_saved_world)
    = Throws INVALID_JSON
        (sample_store,
         copied "database.json" (NotJson "{oops")
           (copied "backup.json" (NotJson "{oops") sample_saved_world))
  ∧ ¬ mirrors
        (sample_store,
         copied "database.json" (NotJson "{oops")
           (copied "backup.json" (NotJson "{oops") sample_saved_world)).
Proof.
  split; [vm_compute; reflexivity|].
  destruct (restoreBackup_is_not_undone sample_store database_json
              (copied "backup.json" (NotJson "{oops") sample_saved_world)
              "backup.json" "{oops") as (H1 & _ & H2 & _);
    [vm_compute; reflexivity|].
  split; [exact H1|exact H2].
Defined.
End UnreadableBackups.

(** ** Handlers of the reloading variant *)

Section Handlers.

Lemma try_catch_quiet {S A} (m : M S A) (handler : error → M S A) s :
  (∀ e s', quiet (handler e s')) → quiet (try_catch m handler s).
Proof.
  intros Hh. unfold try_catch. destruct (m s); simpl; auto.
Qed.

Ltac quiet_handler :=
  apply try_catch_quiet; intros e s';
  unfold bind, console_error, ret; simpl; try destruct e; exact I.

(** X21: no method of the reloading variant raises an exception to its
    caller: each one runs its body in a [try] whose handler only logs, so a
    failure (a missing or unreadable file, a value of the wrong shape, the
    unbound name [DatabaseError]) ends in a logged line and a default
    result. *)
Theorem reloading_methods_never_throw
    (store : Reloading.HelixiaDB) (w : world) (key subKey operator : string)
    (v : value) (x index : float) (data : object) (backupPath : option string)
    (backup : string) :
  quiet (Reloading.loadData store w)
  ∧ quiet (Reloading.saveData store data w)
  ∧ quiet (Reloading.createBackup store backupPath w)
  ∧ quiet (Reloading.restoreBackup store backup w)
  ∧ quiet (Reloading.set store key v w)
  ∧ quiet (Reloading.get store key w)
  ∧ quiet (Reloading.remove store key w)
  ∧ quiet (Reloading.delete store key v w)
  ∧ quiet (Reloading.deleteKey store key subKey w)
  ∧ quiet (Reloading.deleteEach store v w)
  ∧ quiet (Reloading.has store key w)
  ∧ quiet (Reloading.fetch store key w)
  ∧ quiet (Reloading.all store w)
  ∧ quiet (Reloading.clear store w)
  ∧ quiet (Reloading.destroy store w)
  ∧ quiet (Reloading.fetchObject store key subKey w)
  ∧ quiet (Reloading.fetchArray store key index w)
  ∧ quiet (Reloading.math store key operator x w).
Proof.
  repeat apply conj.
  - unfold Reloading.loadData. quiet_handler.
  - unfold Reloading.saveData. quiet_handler.
  - unfold Reloading.createBackup. quiet_handler.
  - unfold Reloading.restoreBackup, bind at 1.
    pose proof (try_catch_quiet
      (let* found := fs_existsSync backup in
       if negb found
       then ret (Some "Backup file not found.")
       else
         fs_copyFileSync backup (Reloading.filePath store) ;;
         Reloading.loadData store ;;
         ret None)
      (λ error, ret (Some (message error))) w) as H.
    destruct (try_catch _ _ w) as [[msg|] w1|e w1|]; simpl; try exact I.
    apply H. intros; exact I.
  - unfold Reloading.set. quiet_handler.
  - unfold Reloading.get. quiet_handler.
  - unfold Reloading.remove. quiet_handler.
  - unfold Reloading.delete. quiet_handler.
  - unfold Reloading.deleteKey. quiet_handler.
  - unfold Reloading.deleteEach. quiet_handler.
  - unfold Reloading.has. quiet_handler.
  - unfold Reloading.fetch, Reloading.get. quiet_handler.
  - unfold Reloading.all. quiet_handler.
  - unfold Reloading.clear. quiet_handler.
  - unfold Reloading.destroy. quiet_handler.
  - unfold Reloading.fetchObject. quiet_handler.
  - unfold Reloading.fetchArray. quiet_handler.
  - unfold Reloading.math. quiet_handler.
Qed.
End Handlers.
